(** * Fruitzy front end: authentication services, session context and
      inventory seeding

    A shallow embedding of
      - [src/services/AuthService.ts]   (credential operations, error mapping),
      - [src/context/AuthContext.tsx]   (session observer, [useAuth]),
      - [src/services/seedInventory.ts] (demo inventory seeding),
      - [src/services/productService.ts] (reading the inventory),
      - [src/types/auth.ts]             (the record types),
    and of the handlers of [App.tsx], [HomeScreen.tsx] and
    [SignUpScreen.tsx] that call them.

    Asynchronous functions are run-to-completion computations in a state
    and exception monad: the state holds the Firestore collections and the
    list of calls made to the external SDKs; a rejected promise is an
    exception.  What the external SDKs answer (Firebase Auth, Firestore,
    the native Google module) is not decided by this code base, so it is
    read from an [Env] record of oracles.  Calls to [console.*] are left
    out: the values thrown in this model are [Js.Error]s, objects whose
    [name], [code] and [message] are strings, and on those the arguments
    of the logging calls ([JSON.stringify], [toString()]) are evaluated
    without throwing and the calls influence no result. *)

From Stdlib Require Import String Ascii List Bool Arith Lia.
From stdpp Require Import base option strings list gmap fin_maps pretty.

Open Scope string_scope.

(** ** JavaScript values used by the services *)

Module Js.

(** A thrown value, as far as the services look at it: [name] and
    [message] of an [Error], and the optional [code] that Firebase and
    the Google module attach. *)
Record Error := mkError {
  name : string;
  code : option string;
  message : option string
}.

(** Truthiness of [string | null | undefined]. *)
Definition truthy (v : option string) : bool :=
  match v with
  | Some s => negb (String.eqb s "")
  | None => false
  end.

(** [a || b] on such values. *)
Definition or_else (a b : option string) : option string :=
  if truthy a then a else b.

(** [a || 'literal']. *)
Definition or_str (a : option string) (b : string) : string :=
  match a with
  | Some s => if String.eqb s "" then b else s
  | None => b
  end.

(** [new Error(msg)]. *)
Definition new_Error (msg : string) : Error :=
  {| name := "Error"; code := None; message := Some msg |}.

(** [Error.prototype.toString]. *)
Definition toString (e : Error) : string :=
  let msg := default "" (message e) in
  if String.eqb (name e) "" then msg
  else if String.eqb msg "" then name e
  else name e ++ ": " ++ msg.

(** [s.includes(needle)]. *)
Fixpoint includes (needle s : string) : bool :=
  String.prefix needle s ||
  match s with
  | EmptyString => false
  | String _ rest => includes needle rest
  end.

(** [msg?.includes(needle)], used as a condition. *)
Definition opt_includes (needle : string) (msg : option string) : bool :=
  match msg with
  | Some s => includes needle s
  | None => false
  end.

(** [code === 'literal'] for [code : string | undefined]. *)
Definition code_is (c : option string) (lit : string) : bool :=
  match c with
  | Some s => String.eqb s lit
  | None => false
  end.

Definition nl : string := String (ascii_of_nat 10) EmptyString.

(** [switch (v) { case c1: r = r1; break; ... default: r = d }] on a
    [string | undefined]: the cases are compared with [===], in order. *)
Fixpoint switch {A : Type} (v : option string) (cases : list (string * A))
    (default : A) : A :=
  match cases with
  | [] => default
  | (c, r) :: rest => if code_is v c then r else switch v rest default
  end.

End Js.

(** ** [types/auth.ts] *)

(** The projection of Firebase's [User] the code reads. *)
Module User.
Record t := mk {
  uid : string;
  email : option string;
  displayName : option string;
  emailVerified : bool
}.
End User.

Module UserData.
Record t := mk {
  email : string;
  fullName : string;
  username : string;
  createdAt : string;
  emailVerified : bool
}.
End UserData.

Record AuthContextType := mkAuthContext {
  ctx_user : option User.t;
  ctx_loading : bool;
  ctx_initializing : bool;
  ctx_isAuthenticated : bool;
  ctx_isEmailVerified : bool
}.

(** [AuthError extends Error] with an optional [code]: the same shape as
    [Js.Error]. *)
Abbreviation AuthError := Js.Error.

(** ** [AuthService.ts]: error formatting *)

(** The ten [case]s of the [switch] in [handleAuthError], each with the
    message it assigns before its [break]. *)
Definition handleAuthError_cases : list (string * string) :=
  [ ("auth/email-already-in-use",
     "This email is already registered. Please sign in instead.");
    ("auth/invalid-email",
     "Please enter a valid email address.");
    ("auth/operation-not-allowed",
     "This sign-in method is not enabled. Please contact support.");
    ("auth/weak-password",
     "Password is too weak. Please use at least 6 characters.");
    ("auth/user-disabled",
     "This account has been disabled. Please contact support.");
    ("auth/user-not-found",
     "No account found with this email. Please sign up first.");
    ("auth/wrong-password",
     "Incorrect password. Please try again.");
    ("auth/too-many-requests",
     "Too many failed attempts. Please try again later.");
    ("auth/network-request-failed",
     "Network error. Please check your internet connection.");
    ("auth/invalid-credential",
     "Invalid credentials. Please check your email and password.") ].

Definition handleAuthError (error : AuthError) : AuthError :=
  let message := "An error occurred during authentication" in
  let message :=
    Js.switch (Js.code error) handleAuthError_cases
      (* default: *) (Js.or_str (Js.message error) message) in
  let formattedError := Js.new_Error message in
  {| Js.name := Js.name formattedError;
     Js.code := Js.code error;
     Js.message := Js.message formattedError |}.

(** The codes the [switch] of [handleAuthError] has a case for. *)
Definition known_codes : list string := map fst handleAuthError_cases.

(** ** The outside world *)

(** [userInfo] as returned by the native [GoogleSignin.signIn()]: the id
    token sits at the top level or under [data], depending on the version
    of the module. *)
Record GoogleUserInfo := mkGoogleUserInfo {
  idToken : option string;
  data : option (option string)   (* [data], and inside it [data.idToken] *)
}.

Record StatusCodes := mkStatusCodes {
  SIGN_IN_CANCELLED : string;
  IN_PROGRESS : string;
  PLAY_SERVICES_NOT_AVAILABLE : string
}.

(** The module-level variables of [AuthService.ts]. [GoogleSignin] is
    [true] when the variable holds the native module rather than [null]. *)
Record ModuleState := mkModuleState {
  GoogleSignin : bool;
  statusCodes : option StatusCodes;
  isGoogleSignInAvailable : bool
}.

(** One inventory document.  [price] is a JavaScript number that the code
    only copies; it is kept in hundredths. *)
Module Product.
Record t := mk {
  id : string;
  name : string;
  description : string;
  price : N;
  stock : N;
  imageKey : string
}.
End Product.

(** The two Firestore collections the code touches, keyed by document id. *)
Record Firestore := mkFirestore {
  users : gmap string UserData.t;
  inventory : gmap string Product.t
}.

(** Calls made to the external SDKs, in the order they are issued. *)
Inductive Call :=
  | CreateUser (email password : string)
  | UpdateProfile (uid displayName : string)
  | SendEmailVerification (uid : string)
  | SignInWithEmail (email password : string)
  | SignInWithPopup
  | SignInWithCredential (idToken : string)
  | FirebaseSignOut
  | SendPasswordResetEmail (email : string)
  | GoogleHasPlayServices
  | GoogleSignOut
  | GoogleSignIn
  | GetUserDoc (uid : string)
  | SetUserDoc (uid : string) (d : UserData.t)
  | GetInventoryDoc (id : string)
  | SetInventoryDoc (id : string) (d : Product.t)
  | GetDocs (collection : string).

(** What the external SDKs answer.  [None] in an [option Js.Error] means
    the call resolves; [Some e] means it rejects with [e]. *)
Record Env := mkEnv {
  Platform_OS : string;
  currentUser : option User.t;                       (* [auth.currentUser] *)
  now : string;                                    (* [new Date().toISOString()] *)
  createUserWithEmailAndPassword : string -> string -> Js.Error + User.t;
  updateProfile : User.t -> string -> option Js.Error;
  sendEmailVerification : User.t -> option Js.Error;
  signInWithEmailAndPassword : string -> string -> Js.Error + User.t;
  signInWithPopup : Js.Error + User.t;
  signInWithCredential : string -> Js.Error + User.t;
  firebaseSignOut : option Js.Error;
  sendPasswordResetEmail : string -> option Js.Error;
  hasPlayServices : option Js.Error;
  google_signOut : option Js.Error;
  google_signIn : Js.Error + GoogleUserInfo;
  getDoc_error : string -> string -> option Js.Error;   (* collection, id *)
  setDoc_error : string -> string -> option Js.Error;
  getDocs_error : string -> option Js.Error             (* collection *)
}.

(** ** The monad of asynchronous operations *)

Record Outcome (A : Type) := mkOutcome {
  result : Js.Error + A;       (* rejected with an error, or resolved *)
  store : Firestore;           (* Firestore afterwards *)
  trace : list Call            (* the calls issued, oldest first *)
}.
Arguments mkOutcome {A} _ _ _.
Arguments result {A} _.
Arguments store {A} _.
Arguments trace {A} _.

Definition M (A : Type) : Type := Firestore -> Outcome A.

#[global] Instance M_ret : MRet M :=
  fun A (a : A) fs => mkOutcome (inr a) fs [].

#[global] Instance M_bind : MBind M :=
  fun A B (k : A -> M B) (m : M A) fs =>
    let o := m fs in
    match result o with
    | inl e => mkOutcome (inl e) (store o) (trace o)
    | inr a =>
        let o' := k a (store o) in
        mkOutcome (result o') (store o') (trace o ++ trace o')
    end.

Definition throw {A : Type} (e : Js.Error) : M A :=
  fun fs => mkOutcome (inl e) fs [].

(** [try { body } catch (error) { handler error }]. *)
Definition try_catch {A : Type} (body : M A) (handler : Js.Error -> M A) : M A :=
  fun fs =>
    let o := body fs in
    match result o with
    | inl e =>
        let o' := handler e (store o) in
        mkOutcome (result o') (store o') (trace o ++ trace o')
    | inr a => o
    end.

(** Awaiting an SDK call: the call is issued, then it resolves or rejects. *)
Definition await {A : Type} (c : Call) (answer : Js.Error + A) : M A :=
  fun fs => mkOutcome answer fs [c].

Definition await_void (c : Call) (answer : option Js.Error) : M unit :=
  await c (match answer with Some e => inl e | None => inr tt end).

(** [getDoc(doc(db, 'users', uid))]: the snapshot is the stored document,
    if there is one. *)
Definition getDoc_users (env : Env) (uid : string) : M (option UserData.t) :=
  fun fs =>
    match getDoc_error env "users" uid with
    | Some e => mkOutcome (inl e) fs [GetUserDoc uid]
    | None => mkOutcome (inr (users fs !! uid)) fs [GetUserDoc uid]
    end.

(** [setDoc(doc(db, 'users', uid), d)]: replaces the document. *)
Definition setDoc_users (env : Env) (uid : string) (d : UserData.t) : M unit :=
  fun fs =>
    match setDoc_error env "users" uid with
    | Some e => mkOutcome (inl e) fs [SetUserDoc uid d]
    | None =>
        mkOutcome (inr tt)
          {| users := <[uid := d]> (users fs); inventory := inventory fs |}
          [SetUserDoc uid d]
    end.

Definition getDoc_inventory (env : Env) (id : string) : M (option Product.t) :=
  fun fs =>
    match getDoc_error env "inventory" id with
    | Some e => mkOutcome (inl e) fs [GetInventoryDoc id]
    | None => mkOutcome (inr (inventory fs !! id)) fs [GetInventoryDoc id]
    end.

Definition setDoc_inventory (env : Env) (id : string) (d : Product.t) : M unit :=
  fun fs =>
    match setDoc_error env "inventory" id with
    | Some e => mkOutcome (inl e) fs [SetInventoryDoc id d]
    | None =>
        mkOutcome (inr tt)
          {| users := users fs; inventory := <[id := d]> (inventory fs) |}
          [SetInventoryDoc id d]
    end.

(** ** [AuthService.ts]: module initialisation *)

(** The top-level [try]: off the web the native module is [require]d, and
    a failing [require] leaves the three variables at their initial
    values. *)
Definition module_init (os : string) (require : option StatusCodes) : ModuleState :=
  let initial :=
    {| GoogleSignin := false; statusCodes := None;
       isGoogleSignInAvailable := false |} in
  if negb (String.eqb os "web") then
    match require with
    | Some codes =>
        {| GoogleSignin := true; statusCodes := Some codes;
           isGoogleSignInAvailable := true |}
    | None => initial
    end
  else initial.

(** ** [AuthService.ts]: credential operations *)

Definition signUpWithEmail (env : Env) (email password : string)
    (fullName username : option string) : M User.t :=
  try_catch
    ((* Create user account *)
     user ← await (CreateUser email password)
              (createUserWithEmailAndPassword env email password);
     (* Update user profile with display name; Firebase stores the new
        name in the [user] object it was given *)
     user ← (if Js.truthy fullName then
               let displayName := default "" fullName in
               await_void (UpdateProfile (User.uid user) displayName)
                 (updateProfile env user displayName);;
               mret {| User.uid := User.uid user; User.email := User.email user;
                       User.displayName := Some displayName;
                       User.emailVerified := User.emailVerified user |}
             else mret user);
     (* Send email verification *)
     await_void (SendEmailVerification (User.uid user))
       (sendEmailVerification env user);;
     (* Store additional user data in Firestore *)
     (if Js.truthy username || Js.truthy fullName then
        let userData :=
          {| UserData.email := Js.or_str (User.email user) "";
             UserData.fullName := Js.or_str fullName "";
             UserData.username := Js.or_str username "";
             UserData.createdAt := now env;
             UserData.emailVerified := false |} in
        setDoc_users env (User.uid user) userData
      else mret tt);;
     mret user)
    (fun error => throw (handleAuthError error)).

Definition signInWithEmail (env : Env) (email password : string) : M User.t :=
  try_catch
    (await (SignInWithEmail email password)
       (signInWithEmailAndPassword env email password))
    (fun error => throw (handleAuthError error)).

(** "Store user data in Firestore if new user": the block that follows
    both [signInWithPopup] and [signInWithCredential], word for word. *)
Definition storeGoogleUserIfNew (env : Env) (user : User.t) : M unit :=
  userDoc ← getDoc_users env (User.uid user);
  if negb (bool_decide (is_Some userDoc)) then
    let userData :=
      {| UserData.email := Js.or_str (User.email user) "";
         UserData.fullName := Js.or_str (User.displayName user) "";
         UserData.username := "";
         UserData.createdAt := now env;
         UserData.emailVerified := true (* Google accounts are pre-verified *) |} in
    setDoc_users env (User.uid user) userData
  else mret tt.

Definition DEVELOPER_ERROR_message (originalError : string) : string :=
  "DEVELOPER_ERROR: " ++ originalError ++ Js.nl ++ Js.nl ++
  "Please check:" ++ Js.nl ++
  "1. SHA-1 fingerprint (7C:02:ED:E8:5B:A0:DC:6E:78:F0:4B:86:9D:47:9C:0A:2F:77:C7:A4) is registered in Firebase Console for package: com.fruitzy.app" ++ Js.nl ++
  "2. Android OAuth client ID is configured in Google Cloud Console with the same SHA-1" ++ Js.nl ++
  "3. webClientId matches your Firebase Web Client ID" ++ Js.nl ++
  "4. Package name in Firebase Console matches: com.fruitzy.app".

(** [statusCodes && error.code === statusCodes.FIELD]. *)
Definition is_status (ms : ModuleState) (field : StatusCodes -> string)
    (error : Js.Error) : bool :=
  match statusCodes ms with
  | Some codes => Js.code_is (Js.code error) (field codes)
  | None => false
  end.

(** The [catch] block of [signInWithGoogle], from "Handle Google Sign-In
    specific errors" on.  The logging before it evaluates
    [JSON.stringify(error, null, 2)] and [error.toString()]; on a
    [Js.Error] both return, so it is left out (a thrown value on which
    one of them throws is outside this model). *)
Definition signInWithGoogle_catch (ms : ModuleState) (error : Js.Error) : M User.t :=
  (* Handle Google Sign-In specific errors *)
  if is_status ms SIGN_IN_CANCELLED error then
    throw (Js.new_Error "Google sign-in was cancelled")
  else if is_status ms IN_PROGRESS error then
    throw (Js.new_Error "Google sign-in is already in progress")
  else if is_status ms PLAY_SERVICES_NOT_AVAILABLE error then
    throw (Js.new_Error "Google Play Services is not available")
  else if Js.code_is (Js.code error) "10"
          || Js.opt_includes "DEVELOPER_ERROR" (Js.message error) then
    (* Preserve original Google error message *)
    let originalError :=
      default "" (Js.or_else (Js.message error) (Some (Js.toString error))) in
    throw (Js.new_Error (DEVELOPER_ERROR_message originalError))
  else if Js.opt_includes "popup" (Js.message error)
          || Js.opt_includes "pop-up" (Js.message error) then
    throw (Js.new_Error
             "Google sign-in popup was blocked. Please allow popups and try again.")
  else
    (* For other errors, preserve the original error message *)
    let errorMessage :=
      Js.or_str (Js.or_else (Js.message error) (Some (Js.toString error)))
        "Unknown Google Sign-In error" in
    throw (Js.new_Error errorMessage).

(** The [try] block of [signInWithGoogle]. *)
Definition signInWithGoogle_try (env : Env) (ms : ModuleState) : M User.t :=
  if String.eqb (Platform_OS env) "web" then
    (* Web implementation - Firebase's built-in signInWithPopup *)
    user ← await SignInWithPopup (signInWithPopup env);
    storeGoogleUserIfNew env user;;
    mret user
  else if negb (isGoogleSignInAvailable ms) || negb (GoogleSignin ms) then
    throw (Js.new_Error
             "Google Sign-In requires a custom development build. Please use email/password sign-in or create a custom dev build with EAS Build.")
  else
    (* Mobile implementation using the native Google Sign-In library *)
    await_void GoogleHasPlayServices (hasPlayServices env);;
    (* Sign out first to ensure account picker is shown *)
    try_catch (await_void GoogleSignOut (google_signOut env))
      (fun _ => mret tt);;
    userInfo ← await GoogleSignIn (google_signIn env);
    let idToken :=
      Js.or_else (idToken userInfo)
        (match data userInfo with Some t => t | None => None end) in
    if negb (Js.truthy idToken) then
      throw (Js.new_Error
               "Google sign-in failed: missing id_token. Please check your SHA-1 fingerprint is registered in Firebase Console.")
    else
      let idToken := default "" idToken in
      user ← await (SignInWithCredential idToken)
               (signInWithCredential env idToken);
      storeGoogleUserIfNew env user;;
      mret user.

Definition signInWithGoogle (env : Env) (ms : ModuleState) : M User.t :=
  try_catch (signInWithGoogle_try env ms) (signInWithGoogle_catch ms).

Definition signOut (env : Env) (ms : ModuleState) : M unit :=
  try_catch
    ((* Sign out from Firebase *)
     await_void FirebaseSignOut (firebaseSignOut env);;
     (* Sign out from Google Sign-In (if on mobile and native module is
        available) *)
     if negb (String.eqb (Platform_OS env) "web")
        && isGoogleSignInAvailable ms && GoogleSignin ms then
       try_catch (await_void GoogleSignOut (google_signOut env))
         (fun _ => (* Ignore errors if user wasn't signed in with Google *)
            mret tt)
     else mret tt)
    (fun error => throw (handleAuthError error)).

Definition resetPassword (env : Env) (email : string) : M unit :=
  try_catch
    (await_void (SendPasswordResetEmail email) (sendPasswordResetEmail env email))
    (fun error => throw (handleAuthError error)).

Definition resendEmailVerification (env : Env) : M unit :=
  try_catch
    (match currentUser env with
     | None => throw (Js.new_Error "No user is currently signed in")
     | Some user =>
         await_void (SendEmailVerification (User.uid user))
           (sendEmailVerification env user)
     end)
    (fun error => throw (handleAuthError error)).

Definition getUserData (env : Env) (uid : string) : M (option UserData.t) :=
  try_catch
    (userDoc ← getDoc_users env uid;
     match userDoc with
     | Some d => mret (Some d)
     | None => mret None
     end)
    (fun error => throw (handleAuthError error)).

(** ** [AuthContext.tsx] *)

(** The three [useState] cells of [AuthProvider]. *)
Record AuthState := mkAuthState {
  user : option User.t;
  loading : bool;
  initializing : bool
}.

(** [useState(null)], [useState(true)], [useState(true)]. *)
Definition AuthProvider_initial : AuthState :=
  {| user := None; loading := true; initializing := true |}.

Definition setUser (u : option User.t) (st : AuthState) : AuthState :=
  {| user := u; loading := loading st; initializing := initializing st |}.

Definition setLoading (b : bool) (st : AuthState) : AuthState :=
  {| user := user st; loading := b; initializing := initializing st |}.

Definition setInitializing (b : bool) (st : AuthState) : AuthState :=
  {| user := user st; loading := loading st; initializing := b |}.

(** The callback registered with [onAuthStateChanged]. *)
Definition onAuthStateChanged_callback (currentUser : option User.t)
    (st : AuthState) : AuthState :=
  setInitializing false (setLoading false (setUser currentUser st)).

(** The state after the backend has delivered [events], oldest first. *)
Definition AuthProvider_run (events : list (option User.t)) : AuthState :=
  fold_left (fun st ev => onAuthStateChanged_callback ev st) events
    AuthProvider_initial.

(** The [value] object handed to [AuthContext.Provider]. *)
Definition AuthProvider_value (st : AuthState) : AuthContextType :=
  {| ctx_user := user st;
     ctx_loading := loading st;
     ctx_initializing := initializing st;
     ctx_isAuthenticated := bool_decide (is_Some (user st));   (* [!!user] *)
     ctx_isEmailVerified :=
       match user st with                        (* [user?.emailVerified || false] *)
       | Some u => User.emailVerified u || false
       | None => false
       end |}.

(** [useContext(AuthContext)] at a place of the component tree that lies
    inside the given [AuthProvider]s, innermost first: the value of the
    nearest one, or the default given to [createContext], [undefined]. *)
Definition useContext_AuthContext (enclosing : list AuthState)
    : option AuthContextType :=
  match enclosing with
  | st :: _ => Some (AuthProvider_value st)
  | [] => None
  end.

Definition useAuth (enclosing : list AuthState) : Js.Error + AuthContextType :=
  let context := useContext_AuthContext enclosing in
  match context with
  | None => inl (Js.new_Error "useAuth must be used within an AuthProvider")
  | Some context => inr context
  end.

(** ** [seedInventory.ts] *)

Definition productsData : list Product.t :=
  [
    {| Product.id := "prd-001";
       Product.name := "Mango";
       Product.description := "Fresh tropical mango with sweet, juicy flesh. Perfect for smoothies and desserts.";
       Product.price := 599 (* 5.99 *);
       Product.stock := 32;
       Product.imageKey := "mango" |};
    {| Product.id := "prd-002";
       Product.name := "Orange";
       Product.description := "Juicy, sweet oranges bursting with vitamin C. Fresh and refreshing.";
       Product.price := 499 (* 4.99 *);
       Product.stock := 28;
       Product.imageKey := "orange" |};
    {| Product.id := "prd-003";
       Product.name := "Pomegranate";
       Product.description := "Ruby red pomegranate seeds, sweet and tangy. Packed with antioxidants and flavor.";
       Product.price := 749 (* 7.49 *);
       Product.stock := 23;
       Product.imageKey := "pomegranate" |};
    {| Product.id := "prd-004";
       Product.name := "Grapes";
       Product.description := "Crisp, sweet grapes in red and purple varieties. Refreshing and perfect for snacking.";
       Product.price := 599 (* 5.99 *);
       Product.stock := 41;
       Product.imageKey := "grapes" |};
    {| Product.id := "prd-005";
       Product.name := "Strawberry";
       Product.description := "Sweet and juicy strawberries, hand-picked at peak ripeness. Ideal for snacking and baking.";
       Product.price := 549 (* 5.49 *);
       Product.stock := 17;
       Product.imageKey := "strawberry" |};
    {| Product.id := "prd-006";
       Product.name := "Banana";
       Product.description := "Ripe yellow bananas, naturally sweet and nutritious. Great for breakfast and snacks.";
       Product.price := 299 (* 2.99 *);
       Product.stock := 35;
       Product.imageKey := "banana" |};
    {| Product.id := "prd-007";
       Product.name := "Blueberries";
       Product.description := "Fresh blueberries packed with antioxidants. Sweet and tangy, perfect for smoothies.";
       Product.price := 499 (* 4.99 *);
       Product.stock := 20;
       Product.imageKey := "blueberries" |};
    {| Product.id := "prd-008";
       Product.name := "Durian";
       Product.description := "Exotic durian fruit with unique flavor and creamy texture. Known as the king of fruits.";
       Product.price := 1299 (* 12.99 *);
       Product.stock := 14;
       Product.imageKey := "durian" |};
    {| Product.id := "prd-009";
       Product.name := "Fig";
       Product.description := "Fresh, sweet figs with soft, jammy interior. Perfect for desserts and cheese pairings.";
       Product.price := 649 (* 6.49 *);
       Product.stock := 26;
       Product.imageKey := "fig" |};
    {| Product.id := "prd-010";
       Product.name := "Avocado";
       Product.description := "Ripe, creamy avocado perfect for salads, toast, and guacamole. Rich in healthy fats.";
       Product.price := 399 (* 3.99 *);
       Product.stock := 33;
       Product.imageKey := "avocado" |};
    {| Product.id := "prd-011";
       Product.name := "Chicken";
       Product.description := "Premium organic chicken, tender and juicy. Perfect for healthy meals and grilling.";
       Product.price := 899 (* 8.99 *);
       Product.stock := 25;
       Product.imageKey := "chicken" |};
    {| Product.id := "prd-012";
       Product.name := "Bread";
       Product.description := "Fresh artisan bread with crispy crust and soft interior. Baked daily for maximum freshness.";
       Product.price := 349 (* 3.49 *);
       Product.stock := 30;
       Product.imageKey := "bread" |};
    {| Product.id := "prd-013";
       Product.name := "Avocado Premium";
       Product.description := "Premium organic avocado with exceptional flavor and texture. Perfect for gourmet dishes.";
       Product.price := 699 (* 6.99 *);
       Product.stock := 22;
       Product.imageKey := "avocadoPremium" |}
  ].

(** One entry of [results]. [error] is present on failed entries only and
    holds [productError.message]. *)
Record SeedEntry := mkSeedEntry {
  se_id : string;
  se_name : string;
  se_action : string;
  se_status : string;
  se_error : option (option string)
}.

Record SeedSummary := mkSeedSummary {
  total : nat;
  added : nat;
  skipped : nat;
  failed : nat
}.

Record SeedReport := mkSeedReport {
  success : bool;
  results : list SeedEntry;
  summary : SeedSummary;
  sr_message : string
}.

(** [results.filter(r => r.status === s).length]. *)
Definition count_status (s : string) (results : list SeedEntry) : nat :=
  length (filter (fun r => se_status r = s) results).

(** The body of the [for ... of] loop: one product, inside its own
    [try]/[catch]; it yields [results] after the [push]. *)
Definition seed_product (env : Env) (product : Product.t)
    (results : list SeedEntry) : M (list SeedEntry) :=
  try_catch
    ((* Check if product already exists *)
     existingDoc ← getDoc_inventory env (Product.id product);
     if negb (bool_decide (is_Some existingDoc)) then
       let productData :=
         {| Product.id := Product.id product;
            Product.name := Product.name product;
            Product.description := Product.description product;
            Product.price := Product.price product;
            Product.stock := Product.stock product;
            Product.imageKey := Product.imageKey product |} in
       (* Add product to Firestore *)
       setDoc_inventory env (Product.id product) productData;;
       mret (results ++
               [ {| se_id := Product.id product; se_name := Product.name product;
                    se_action := "added"; se_status := "success";
                    se_error := None |} ])%list
     else
       mret (results ++
               [ {| se_id := Product.id product; se_name := Product.name product;
                    se_action := "exists"; se_status := "skipped";
                    se_error := None |} ])%list)
    (fun productError =>
       mret (results ++
               [ {| se_id := Product.id product; se_name := Product.name product;
                    se_action := "error"; se_status := "failed";
                    se_error := Some (Js.message productError) |} ])%list).

Fixpoint seed_loop (env : Env) (products : list Product.t)
    (results : list SeedEntry) : M (list SeedEntry) :=
  match products with
  | [] => mret results
  | product :: rest =>
      results ← seed_product env product results;
      seed_loop env rest results
  end.

Definition seedInventory_catch (error : Js.Error) : M SeedReport :=
  if Js.code_is (Js.code error) "permission-denied" then
    throw (Js.new_Error
      ("Firestore permission denied. Please update Firestore security rules to allow writes to the inventory collection:"
       ++ Js.nl ++ Js.nl ++ "match /inventory/{productId} {" ++ Js.nl ++
       "  allow read, write: if true;  // Temporary for seeding" ++ Js.nl ++ "}"))
  else if Js.code_is (Js.code error) "unavailable"
          || Js.opt_includes "offline" (Js.message error) then
    throw (Js.new_Error
      ("Cannot connect to Firestore. Please check:" ++ Js.nl ++
       "1. Internet connection" ++ Js.nl ++
       "2. Firebase project configuration" ++ Js.nl ++
       "3. Firestore is enabled in Firebase Console" ++ Js.nl ++
       "4. Firestore security rules allow write access"))
  else throw error.

Definition seedInventory (env : Env) : M SeedReport :=
  try_catch
    (results ← seed_loop env productsData [];
     let successCount := count_status "success" results in
     let skippedCount := count_status "skipped" results in
     let failedCount := count_status "failed" results in
     mret {| success := Nat.eqb failedCount 0;
             results := results;
             summary := {| total := length results; added := successCount;
                           skipped := skippedCount; failed := failedCount |};
             sr_message :=
               "Seeded " ++ pretty successCount ++ " products, " ++
               pretty skippedCount ++ " already existed, " ++
               pretty failedCount ++ " failed" |})
    seedInventory_catch.

(** [checkInventoryCollection]'s answer; [error] is present on the two
    failure answers only. *)
Record InventoryCheck := mkInventoryCheck {
  ic_exists : bool;
  ic_count : nat;
  ic_products : list Product.t;
  ic_error : option (option string)
}.

(** [getDocs(collection(db, 'inventory'))]: the snapshot holds the
    documents of the collection with their ids. *)
Definition getDocs_inventory (env : Env) : M (list (string * Product.t)) :=
  fun fs =>
    match getDocs_error env "inventory" with
    | Some e => mkOutcome (inl e) fs [GetDocs "inventory"]
    | None => mkOutcome (inr (map_to_list (inventory fs))) fs [GetDocs "inventory"]
    end.

(** [{ id: doc.id, ...doc.data() }]: the fields of the document, its own
    [id] included, come after [doc.id] and win. *)
Definition doc_with_id (doc : string * Product.t) : Product.t :=
  let '(id, data) := doc in
  {| Product.id := Product.id data;
     Product.name := Product.name data;
     Product.description := Product.description data;
     Product.price := Product.price data;
     Product.stock := Product.stock data;
     Product.imageKey := Product.imageKey data |}.

Definition checkInventoryCollection (env : Env) : M InventoryCheck :=
  try_catch
    (snapshot ← getDocs_inventory env;
     mret {| ic_exists := true;
             ic_count := length snapshot;
             ic_products := map doc_with_id snapshot;
             ic_error := None |})
    (fun error =>
       (* If permission denied, return empty but don't throw *)
       if Js.code_is (Js.code error) "permission-denied" then
         mret {| ic_exists := false; ic_count := 0; ic_products := [];
                 ic_error :=
                   Some (Some "Permission denied. Please update Firestore security rules.") |}
       else
         mret {| ic_exists := false; ic_count := 0; ic_products := [];
                 ic_error := Some (Js.message error) |}).

(** ** [productService.ts] *)

Definition fetchProducts (env : Env) : M (list Product.t) :=
  try_catch
    (snapshot ← getDocs_inventory env;
     mret (map doc_with_id snapshot))
    (fun error =>
       (* Provide helpful error messages *)
       if Js.code_is (Js.code error) "unavailable"
          || Js.opt_includes "offline" (Js.message error) then
         throw (Js.new_Error
           ("Cannot connect to Firestore. Please check:" ++ Js.nl ++
            "1. Internet connection" ++ Js.nl ++
            "2. Firebase project configuration" ++ Js.nl ++
            "3. Firestore is enabled in Firebase Console"))
       else throw error).

Definition fetchProductById (env : Env) (productId : string)
    : M (option Product.t) :=
  try_catch
    (snapshot ← getDoc_inventory env productId;
     match snapshot with
     | None => mret None
     | Some data => mret (Some (doc_with_id (productId, data)))
     end)
    (fun error => throw error).

(** ** [HomeScreen.tsx] *)

(** The body of the first effect, up to [loadProducts]: seed when the
    check counts no product; whatever is thrown is logged and dropped. *)
Definition initializeInventory (env : Env) : M unit :=
  try_catch
    (checkResult ← checkInventoryCollection env;
     if Nat.eqb (ic_count checkResult) 0 then
       (* No products exist, seed inventory collection *)
       seedResult ← seedInventory env;
       mret tt
     else mret tt)
    (fun _ => mret tt).

(** Priority products to show first on the home screen (by imageKey). *)
Definition PRIORITY_PRODUCTS : list string :=
  ["mango"; "strawberry"; "chicken"; "bread"; "avocadoPremium"].

(** [imageKey] is optional in [productService.ts]; a missing one is read
    here as [''], which is what [product.imageKey || ''] makes of it and
    which, like [undefined], equals no priority key. *)
Definition sortProductsByPriority (products : list Product.t) : list Product.t :=
  (* First, add priority products in order (match by imageKey) *)
  let priorityProducts :=
    omap (fun priorityImageKey =>
            List.find (fun p => String.eqb (Product.imageKey p) priorityImageKey)
              products)
      PRIORITY_PRODUCTS in
  (* Then add remaining products *)
  let otherProducts :=
    filter (fun product => Product.imageKey product ∉ PRIORITY_PRODUCTS) products in
  (priorityProducts ++ otherProducts)%list.

(** ** [AuthService.ts]: configuration *)

(** [configureGoogleSignIn]: [webClientId] is the environment variable
    [EXPO_PUBLIC_GOOGLE_WEB_CLIENT_ID], [configure] says whether
    [GoogleSignin.configure] throws.  The only variable it assigns is
    [isGoogleSignInAvailable]. *)
Definition configureGoogleSignIn (os : string) (webClientId : option string)
    (configure : option Js.Error) (ms : ModuleState) : ModuleState :=
  let unavailable :=
    {| GoogleSignin := GoogleSignin ms; statusCodes := statusCodes ms;
       isGoogleSignInAvailable := false |} in
  if negb (String.eqb os "web") && isGoogleSignInAvailable ms && GoogleSignin ms then
    if negb (Js.truthy webClientId) || Js.opt_includes "YOUR_" webClientId
       || Js.opt_includes "your-" webClientId then
      unavailable
    else
      match configure with
      | None => ms
      | Some _ => unavailable
      end
  else ms.

(** ** [SignUpScreen.tsx] *)


Section SignUpScreen.

(** [String.prototype.trim], [String.prototype.toLowerCase], the test of
    [/^[^\s@]+@[^\s@]+\.[^\s@]+$/] and the [length] of a string, its
    number of UTF-16 code units, are the JavaScript engine's. *)
Variable trim : string -> string.
Variable toLowerCase : string -> string.
Variable emailRegex_test : string -> bool.
Variable js_length : string -> nat.




End SignUpScreen.

(** ** [App.tsx] *)

Inductive AuthView :=
  | landing_signin
  | email_signin
  | landing_signup
  | email_signup.

(** The two [useState] cells of [AppContent] that [handleSignOut] sets. *)
Record AppState := mkAppState {
  authView : AuthView;
  skipAuth : bool
}.

Definition handleSignOut (env : Env) (ms : ModuleState) (st : AppState)
    : M AppState :=
  try_catch
    ((* Sign out from Firebase *)
     signOut env ms;;
     (* Reset local state *)
     mret {| authView := landing_signin; skipAuth := false |})
    (fun _ => mret st).

(** * Vocabulary of the statements *)

(** ** Counting calls *)

Definition is_verification_mail (c : Call) : bool :=
  match c with SendEmailVerification _ => true | _ => false end.

Definition is_profile_read (uid : string) (c : Call) : bool :=
  match c with GetUserDoc uid' => String.eqb uid' uid | _ => false end.

Definition is_profile_write (uid : string) (c : Call) : bool :=
  match c with SetUserDoc uid' _ => String.eqb uid' uid | _ => false end.

Definition count_calls (f : Call -> bool) (tr : list Call) : nat :=
  length (List.filter f tr).

(** Calls that read or write a profile. *)
Definition is_user_doc (c : Call) : bool :=
  match c with GetUserDoc _ | SetUserDoc _ _ => true | _ => false end.

(** The [userData] object that [storeGoogleUserIfNew] builds. *)
Definition googleUserData (env : Env) (user : User.t) : UserData.t :=
  {| UserData.email := Js.or_str (User.email user) "";
     UserData.fullName := Js.or_str (User.displayName user) "";
     UserData.username := "";
     UserData.createdAt := now env;
     UserData.emailVerified := true |}.

(** The entry pushed for [product]. *)
Definition seed_entry (product : Product.t) (action status : string)
    (error : option (option string)) : SeedEntry :=
  {| se_id := Product.id product; se_name := Product.name product;
     se_action := action; se_status := status; se_error := error |}.

(** The entry that a run of [seedInventory] on the store [fs] owes to
    [product]: failed, with the message of the refusal, when the read of
    its document is refused, or when there is no document and the write is
    refused; skipped when the read finds a document; added when the
    document was missing and the write went through. *)
Definition expected_entry (env : Env) (fs : Firestore) (product : Product.t)
    : SeedEntry :=
  let id := Product.id product in
  match getDoc_error env "inventory" id with
  | Some e => seed_entry product "error" "failed" (Some (Js.message e))
  | None =>
      match inventory fs !! id with
      | Some _ => seed_entry product "exists" "skipped" None
      | None =>
          match setDoc_error env "inventory" id with
          | Some e => seed_entry product "error" "failed" (Some (Js.message e))
          | None => seed_entry product "added" "success" None
          end
      end
  end.

(** ** Sample answers of the backends, for the scenarios below *)

Module Scenario.

Definition fresh_user (email : string) : User.t :=
  {| User.uid := "uid-1"; User.email := Some email;
     User.displayName := None; User.emailVerified := false |}.

Definition google_user : User.t :=
  {| User.uid := "uid-g"; User.email := Some "g@b.com";
     User.displayName := Some "Gil"; User.emailVerified := true |}.

Definition quota_error : Js.Error :=
  {| Js.name := "FirebaseError"; Js.code := Some "resource-exhausted";
     Js.message := Some "Quota exceeded." |}.

Definition not_signed_in : Js.Error :=
  {| Js.name := "Error"; Js.code := Some "SIGN_IN_REQUIRED";
     Js.message := Some "not signed in with Google" |}.

(** Every backend call resolves. *)
Definition env_ok (os : string) : Env :=
  {| Platform_OS := os;
     currentUser := None;
     now := "2024-05-01T10:00:00.000Z";
     createUserWithEmailAndPassword := fun email _ => inr (fresh_user email);
     updateProfile := fun _ _ => None;
     sendEmailVerification := fun _ => None;
     signInWithEmailAndPassword := fun email _ => inr (fresh_user email);
     signInWithPopup := inr google_user;
     signInWithCredential := fun _ => inr google_user;
     firebaseSignOut := None;
     sendPasswordResetEmail := fun _ => None;
     hasPlayServices := None;
     google_signOut := None;
     google_signIn := inr {| idToken := Some "id-token"; data := None |};
     getDoc_error := fun _ _ => None;
     setDoc_error := fun _ _ => None;
     getDocs_error := fun _ => None |}.

(** As [env_ok], but every [setDoc] on the [users] collection rejects. *)
Definition env_profile_write_fails (os : string) : Env :=
  let env := env_ok os in
  {| Platform_OS := os;
     currentUser := currentUser env;
     now := now env;
     createUserWithEmailAndPassword := createUserWithEmailAndPassword env;
     updateProfile := updateProfile env;
     sendEmailVerification := sendEmailVerification env;
     signInWithEmailAndPassword := signInWithEmailAndPassword env;
     signInWithPopup := signInWithPopup env;
     signInWithCredential := signInWithCredential env;
     firebaseSignOut := firebaseSignOut env;
     sendPasswordResetEmail := sendPasswordResetEmail env;
     hasPlayServices := hasPlayServices env;
     google_signOut := google_signOut env;
     google_signIn := google_signIn env;
     getDoc_error := getDoc_error env;
     setDoc_error := fun collection _ =>
       if String.eqb collection "users" then Some quota_error else None;
     getDocs_error := getDocs_error env |}.

(** As [env_ok], but the native [GoogleSignin.signOut()] rejects. *)
Definition env_google_signOut_fails (os : string) : Env :=
  let env := env_ok os in
  {| Platform_OS := os;
     currentUser := currentUser env;
     now := now env;
     createUserWithEmailAndPassword := createUserWithEmailAndPassword env;
     updateProfile := updateProfile env;
     sendEmailVerification := sendEmailVerification env;
     signInWithEmailAndPassword := signInWithEmailAndPassword env;
     signInWithPopup := signInWithPopup env;
     signInWithCredential := signInWithCredential env;
     firebaseSignOut := firebaseSignOut env;
     sendPasswordResetEmail := sendPasswordResetEmail env;
     hasPlayServices := hasPlayServices env;
     google_signOut := Some not_signed_in;
     google_signIn := google_signIn env;
     getDoc_error := getDoc_error env;
     setDoc_error := setDoc_error env;
     getDocs_error := getDocs_error env |}.

Definition native_codes : StatusCodes :=
  {| SIGN_IN_CANCELLED := "SIGN_IN_CANCELLED";
     IN_PROGRESS := "IN_PROGRESS";
     PLAY_SERVICES_NOT_AVAILABLE := "PLAY_SERVICES_NOT_AVAILABLE" |}.

Definition empty_store : Firestore := {| users := ∅; inventory := ∅ |}.

(** A store in which [uid-1] already has a profile. *)
Definition old_profile : UserData.t :=
  {| UserData.email := "old@b.com"; UserData.fullName := "Old Name";
     UserData.username := "old"; UserData.createdAt := "2020-01-01T00:00:00.000Z";
     UserData.emailVerified := true |}.

Definition store_with_profile : Firestore :=
  {| users := {[ "uid-1" := old_profile ]}; inventory := ∅ |}.

End Scenario.

(** [env] with another answer of the native [GoogleSignin.signOut()]. *)
Definition with_google_signOut (answer : option Js.Error) (env : Env) : Env :=
  {| Platform_OS := Platform_OS env;
     currentUser := currentUser env;
     now := now env;
     createUserWithEmailAndPassword := createUserWithEmailAndPassword env;
     updateProfile := updateProfile env;
     sendEmailVerification := sendEmailVerification env;
     signInWithEmailAndPassword := signInWithEmailAndPassword env;
     signInWithPopup := signInWithPopup env;
     signInWithCredential := signInWithCredential env;
     firebaseSignOut := firebaseSignOut env;
     sendPasswordResetEmail := sendPasswordResetEmail env;
     hasPlayServices := hasPlayServices env;
     google_signOut := answer;
     google_signIn := google_signIn env;
     getDoc_error := getDoc_error env;
     setDoc_error := setDoc_error env;
     getDocs_error := getDocs_error env |}.

(** As [Scenario.env_ok], with the given answers of the sign-out calls,
    of the native sign-in and of Firestore. *)
Definition env_with (os : string) (fb_signOut g_signOut : option Js.Error)
    (g_signIn : Js.Error + GoogleUserInfo)
    (getDoc_err setDoc_err : string -> string -> option Js.Error)
    (getDocs_err : string -> option Js.Error) : Env :=
  let env := Scenario.env_ok os in
  {| Platform_OS := os;
     currentUser := currentUser env;
     now := now env;
     createUserWithEmailAndPassword := createUserWithEmailAndPassword env;
     updateProfile := updateProfile env;
     sendEmailVerification := sendEmailVerification env;
     signInWithEmailAndPassword := signInWithEmailAndPassword env;
     signInWithPopup := signInWithPopup env;
     signInWithCredential := signInWithCredential env;
     firebaseSignOut := fb_signOut;
     sendPasswordResetEmail := sendPasswordResetEmail env;
     hasPlayServices := hasPlayServices env;
     google_signOut := g_signOut;
     google_signIn := g_signIn;
     getDoc_error := getDoc_err;
     setDoc_error := setDoc_err;
     getDocs_error := getDocs_err |}.

Definition no_error2 : string -> string -> option Js.Error := fun _ _ => None.
Definition no_error1 : string -> option Js.Error := fun _ => None.

(** Calls that read an inventory document, and calls on inventory
    documents at all. *)
Definition is_inventory_read (c : Call) : bool :=
  match c with GetInventoryDoc _ => true | _ => false end.

Definition is_inventory_call (c : Call) : bool :=
  match c with GetInventoryDoc _ | SetInventoryDoc _ _ => true | _ => false end.

(** The inventory documents of the seed data, by id. *)
Definition seed_documents (products : list Product.t) : gmap string Product.t :=
  list_to_map (map (fun p => (Product.id p, p)) products).

(** * Properties *)

(** ** Laws of the monad used below *)

Section MonadFacts.
Context {A B : Type}.

Lemma bind_unfold (m : M A) (k : A -> M B) (fs : Firestore) :
  (m ≫= k) fs =
  match result (m fs) with
  | inl e => mkOutcome (inl e) (store (m fs)) (trace (m fs))
  | inr a =>
      mkOutcome (result (k a (store (m fs)))) (store (k a (store (m fs))))
        (trace (m fs) ++ trace (k a (store (m fs))))
  end.
Proof. reflexivity. Qed.

Lemma bind_inl (m : M A) (k : A -> M B) fs e :
  result (m fs) = inl e ->
  (m ≫= k) fs = mkOutcome (inl e) (store (m fs)) (trace (m fs)).
Proof. intros H. rewrite bind_unfold, H. reflexivity. Qed.

Lemma bind_inr (m : M A) (k : A -> M B) fs a :
  result (m fs) = inr a ->
  (m ≫= k) fs =
  mkOutcome (result (k a (store (m fs)))) (store (k a (store (m fs))))
    (trace (m fs) ++ trace (k a (store (m fs)))).
Proof. intros H. rewrite bind_unfold, H. reflexivity. Qed.

Lemma try_catch_inr (body : M A) (h : Js.Error -> M A) fs a :
  result (body fs) = inr a -> try_catch body h fs = body fs.
Proof. intros H. unfold try_catch. rewrite H. reflexivity. Qed.

Lemma try_catch_inl (body : M A) (h : Js.Error -> M A) fs e :
  result (body fs) = inl e ->
  try_catch body h fs =
  mkOutcome (result (h e (store (body fs)))) (store (h e (store (body fs))))
    (trace (body fs) ++ trace (h e (store (body fs)))).
Proof. intros H. unfold try_catch. rewrite H. reflexivity. Qed.

End MonadFacts.

(** Unfolding the monad in a goal about a concrete run. *)
Ltac unfold_M :=
  unfold mbind, M_bind, mret, M_ret, throw, try_catch, await_void, await in *.

(** A call is not among the finitely many of a trace that is known. *)
Ltac not_in_trace :=
  let H := fresh in
  intros H;
  repeat (apply elem_of_cons in H as [H|H]; [discriminate H|]);
  by apply elem_of_nil in H.

(** ** Error formatting *)

Lemma or_str_nonempty (a : option string) (b : string) :
  b <> "" -> Js.or_str a b <> "".
Proof.
  intros Hb. unfold Js.or_str. destruct a as [s|]; [|exact Hb].
  destruct (String.eqb_spec s ""); assumption.
Qed.

Lemma switch_cases {A : Type} (v : option string) (cases : list (string * A))
    (d : A) :
  Js.switch v cases d = d \/
  exists c, v = Some c /\ (c, Js.switch v cases d) ∈ cases.
Proof.
  induction cases as [|[c r] rest IH]; cbn; [by left|].
  destruct v as [s|]; cbn.
  - destruct (String.eqb_spec s c) as [->|Hne].
    + right. exists c. split; [reflexivity | apply elem_of_cons; by left].
    + destruct IH as [IH | (c' & Hc' & Hin)]; [by left|].
      right. exists c'. split; [assumption | apply elem_of_cons; by right].
  - destruct IH as [IH | (c' & Hc' & _)]; [by left | discriminate].
Qed.

(** On a value that has a case, the default plays no part. *)
Lemma switch_known {A : Type} (c : string) (cases : list (string * A))
    (d1 d2 : A) :
  c ∈ map fst cases -> Js.switch (Some c) cases d1 = Js.switch (Some c) cases d2.
Proof.
  induction cases as [|[c' r] rest IH]; cbn; intros Hin.
  - by apply elem_of_nil in Hin.
  - destruct (String.eqb_spec c c') as [->|Hne]; [reflexivity|].
    apply elem_of_cons in Hin as [Heq | Hin]; [contradiction | by apply IH].
Qed.

(** On a value that has no case, the result is the default. *)
Lemma switch_unknown {A : Type} (v : option string) (cases : list (string * A))
    (d : A) :
  (forall c, v = Some c -> c ∉ map fst cases) -> Js.switch v cases d = d.
Proof.
  induction cases as [|[c' r] rest IH]; cbn; intros Hout; [reflexivity|].
  destruct v as [s|]; cbn.
  - destruct (String.eqb_spec s c') as [->|Hne].
    + exfalso. apply (Hout c' eq_refl). apply elem_of_cons. by left.
    + apply IH. intros c [= <-] Hin. apply (Hout s eq_refl).
      apply elem_of_cons. by right.
  - apply IH. intros c [=].
Qed.

Lemma handleAuthError_cases_nonempty :
  Forall (fun p => snd p <> "") handleAuthError_cases.
Proof. unfold handleAuthError_cases. repeat constructor; discriminate. Qed.

(** The message of a formatted error is never empty, whatever came in. *)
Lemma handleAuthError_message (e : AuthError) :
  exists msg, Js.message (handleAuthError e) = Some msg /\ msg <> "".
Proof.
  unfold handleAuthError. cbn [Js.message Js.new_Error].
  eexists; split; [reflexivity|].
  destruct (switch_cases (Js.code e) handleAuthError_cases
              (Js.or_str (Js.message e) "An error occurred during authentication"))
    as [-> | (c & _ & Hin)].
  - by apply or_str_nonempty.
  - pose proof handleAuthError_cases_nonempty as Hall.
    rewrite Forall_forall in Hall. apply (Hall _ Hin).
Qed.

(** C5. For each backend error code that [handleAuthError] knows (the ten
    cases of its [switch]), the formatted error is a function of the code
    alone: two raw errors with that code give the same formatted error,
    whatever their names and messages.  Its message is not empty, it is a
    plain [Error] and it keeps the code; nothing else of the raw error
    reaches the caller. *)
Theorem handleAuthError_known_code (e1 e2 : AuthError) (c : string) :
  c ∈ known_codes ->
  Js.code e1 = Some c -> Js.code e2 = Some c ->
  handleAuthError e1 = handleAuthError e2 /\
  (exists msg, Js.message (handleAuthError e1) = Some msg /\ msg <> "") /\
  Js.name (handleAuthError e1) = "Error" /\
  Js.code (handleAuthError e1) = Some c.
Proof.
  intros Hc H1 H2. split; [|split; [apply handleAuthError_message|]].
  - unfold handleAuthError. rewrite H1, H2. cbn [Js.name Js.message Js.new_Error].
    by rewrite (switch_known c _ _ (Js.or_str (Js.message e2)
                                      "An error occurred during authentication")).
  - unfold handleAuthError. cbn [Js.name Js.code Js.new_Error]. by rewrite H1.
Qed.

Lemma handleAuthError_known_code_witness :
  let raw1 := {| Js.name := "FirebaseError";
                 Js.code := Some "auth/wrong-password";
                 Js.message := Some "Firebase: Error (auth/wrong-password)." |} in
  let raw2 := {| Js.name := "FirebaseError";
                 Js.code := Some "auth/wrong-password";
                 Js.message := None |} in
  handleAuthError raw1 = handleAuthError raw2 /\
  (exists msg, Js.message (handleAuthError raw1) = Some msg /\ msg <> "") /\
  Js.name (handleAuthError raw1) = "Error" /\
  Js.code (handleAuthError raw1) = Some "auth/wrong-password".
Proof.
  apply (handleAuthError_known_code _ _ "auth/wrong-password");
    [unfold known_codes; repeat constructor | reflexivity | reflexivity].
Defined.

(** ** The session observer *)

Lemma callback_state (ev : option User.t) (st : AuthState) :
  onAuthStateChanged_callback ev st =
  {| user := ev; loading := false; initializing := false |}.
Proof. reflexivity. Qed.

Lemma isAuthenticated_iff (st : AuthState) :
  ctx_isAuthenticated (AuthProvider_value st) = true <-> user st <> None.
Proof.
  cbn. rewrite bool_decide_eq_true, <- not_eq_None_Some. reflexivity.
Qed.

(** C4. After each observer event the session's identity is the argument
    of that event, [loading] and [initializing] are false (so
    [initializing] is false from the first event on), and
    [isAuthenticated] holds exactly when the identity is not [null]; the
    latter also holds of the state before the event, the initial state
    included. *)
Theorem session_normalization (events : list (option User.t))
    (ev : option User.t) :
  let before := AuthProvider_run events in
  let after := AuthProvider_run (events ++ [ev]) in
  user after = ev /\ loading after = false /\ initializing after = false /\
  (ctx_isAuthenticated (AuthProvider_value after) = true <-> ev <> None) /\
  (ctx_isAuthenticated (AuthProvider_value before) = true <->
   user before <> None).
Proof.
  cbn zeta. unfold AuthProvider_run. rewrite fold_left_app. cbn [fold_left].
  rewrite callback_state. cbn [user loading initializing].
  split; [reflexivity|]. split; [reflexivity|]. split; [reflexivity|].
  split; apply isAuthenticated_iff.
Qed.

(** ** The session accessor *)

(** C9. [useAuth] throws exactly when it is called outside every
    [AuthProvider]; inside one it returns the provider's value, an object
    with [user], [loading], [initializing], [isAuthenticated] and
    [isEmailVerified]. *)
Theorem useAuth_throws_iff_outside (enclosing : list AuthState)
    (st : AuthState) (rest : list AuthState) :
  ((exists e, useAuth enclosing = inl e) <-> enclosing = []) /\
  useAuth (st :: rest) =
  inr {| ctx_user := user st;
         ctx_loading := loading st;
         ctx_initializing := initializing st;
         ctx_isAuthenticated := ctx_isAuthenticated (AuthProvider_value st);
         ctx_isEmailVerified := ctx_isEmailVerified (AuthProvider_value st) |}.
Proof.
  split; [|reflexivity].
  destruct enclosing as [|st' rest']; cbn.
  - split; [reflexivity|]. intros _. eexists. reflexivity.
  - split; [intros [e He]; discriminate | discriminate].
Qed.

(** ** Sign-out *)

(** C6. When Firebase's sign-out resolves and the native Google sign-out
    rejects, [signOut] resolves: on a device with the native module the
    Google call is made and its error is dropped, elsewhere the call is
    not made at all.  Firestore is left alone. *)
Theorem signOut_swallows_provider_error (env : Env) (ms : ModuleState)
    (fs : Firestore) (e : Js.Error) :
  firebaseSignOut env = None ->
  google_signOut env = Some e ->
  let o := signOut env ms fs in
  result o = inr tt /\ store o = fs /\
  trace o =
    if negb (String.eqb (Platform_OS env) "web")
       && isGoogleSignInAvailable ms && GoogleSignin ms
    then [FirebaseSignOut; GoogleSignOut] else [FirebaseSignOut].
Proof.
  intros Hfb Hg. unfold signOut. unfold_M. rewrite Hfb. cbn.
  destruct (negb (String.eqb (Platform_OS env) "web")
            && isGoogleSignInAvailable ms && GoogleSignin ms); cbn.
  - rewrite Hg. cbn. auto.
  - auto.
Qed.

Lemma signOut_swallows_provider_error_witness :
  let env := Scenario.env_google_signOut_fails "android" in
  let ms := module_init "android" (Some Scenario.native_codes) in
  let o := signOut env ms Scenario.empty_store in
  result o = inr tt /\ store o = Scenario.empty_store /\
  trace o = [FirebaseSignOut; GoogleSignOut].
Proof.
  apply (signOut_swallows_provider_error
           (Scenario.env_google_signOut_fails "android")
           (module_init "android" (Some Scenario.native_codes))
           Scenario.empty_store Scenario.not_signed_in);
    reflexivity.
Defined.

(** ** Resending the verification mail *)

(** C7. Without a current user [resendEmailVerification] rejects.  The
    error is the one raised for the missing session, "No user is currently
    signed in", passed through [handleAuthError]; no verification mail is
    requested. *)
Theorem resendEmailVerification_no_session (env : Env) (fs : Firestore) :
  currentUser env = None ->
  let o := resendEmailVerification env fs in
  result o = inl (handleAuthError (Js.new_Error "No user is currently signed in")) /\
  result o = inl {| Js.name := "Error"; Js.code := None;
                    Js.message := Some "No user is currently signed in" |} /\
  trace o = [] /\ store o = fs.
Proof.
  intros Hu. unfold resendEmailVerification. rewrite Hu. unfold_M. cbn. auto.
Qed.

Lemma resendEmailVerification_no_session_witness :
  let o := resendEmailVerification (Scenario.env_ok "web") Scenario.empty_store in
  result o = inl (handleAuthError (Js.new_Error "No user is currently signed in")) /\
  result o = inl {| Js.name := "Error"; Js.code := None;
                    Js.message := Some "No user is currently signed in" |} /\
  trace o = [] /\ store o = Scenario.empty_store.
Proof.
  apply (resendEmailVerification_no_session (Scenario.env_ok "web")
           Scenario.empty_store).
  reflexivity.
Defined.

(** ** Sign-up *)

(** C8. Signing up with "a@b.com", "password123", full name "Ann" and no
    user name, when the backend creates the account under that e-mail and
    the later calls resolve: the user comes back with that e-mail, the
    calls are, in order, the account creation, the display-name update,
    one verification mail and one write of the profile
    [{email:"a@b.com", fullName:"Ann", username:"", emailVerified:false}]
    (stamped with the current time), and that profile is what Firestore
    then holds for the uid. *)
Theorem signUp_scenario (env : Env) (fs : Firestore) (u : User.t) :
  let named :=
    {| User.uid := User.uid u; User.email := User.email u;
       User.displayName := Some "Ann";
       User.emailVerified := User.emailVerified u |} in
  let profile :=
    {| UserData.email := "a@b.com"; UserData.fullName := "Ann";
       UserData.username := ""; UserData.createdAt := now env;
       UserData.emailVerified := false |} in
  createUserWithEmailAndPassword env "a@b.com" "password123" = inr u ->
  User.email u = Some "a@b.com" ->
  updateProfile env u "Ann" = None ->
  sendEmailVerification env named = None ->
  setDoc_error env "users" (User.uid u) = None ->
  let o := signUpWithEmail env "a@b.com" "password123" (Some "Ann") None fs in
  result o = inr named /\
  User.email named = Some "a@b.com" /\
  trace o =
    [ CreateUser "a@b.com" "password123";
      UpdateProfile (User.uid u) "Ann";
      SendEmailVerification (User.uid u);
      SetUserDoc (User.uid u) profile ] /\
  count_calls is_verification_mail (trace o) = 1 /\
  count_calls (is_profile_write (User.uid u)) (trace o) = 1 /\
  users (store o) = <[User.uid u := profile]> (users fs) /\
  inventory (store o) = inventory fs.
Proof.
  intros named profile Hcreate Hmail Hupd Hsend Hset.
  unfold signUpWithEmail, setDoc_users. unfold_M. cbn.
  rewrite Hcreate. cbn. rewrite Hupd. cbn. fold named.
  rewrite Hsend. cbn. rewrite Hset. cbn. rewrite Hmail. cbn.
  fold profile. unfold count_calls. cbn. rewrite String.eqb_refl. cbn.
  repeat split; try assumption.
Qed.

Lemma signUp_scenario_witness :
  let env := Scenario.env_ok "web" in
  let o := signUpWithEmail env "a@b.com" "password123" (Some "Ann") None
             Scenario.empty_store in
  let profile :=
    {| UserData.email := "a@b.com"; UserData.fullName := "Ann";
       UserData.username := ""; UserData.createdAt := now env;
       UserData.emailVerified := false |} in
  result o =
    inr {| User.uid := "uid-1"; User.email := Some "a@b.com";
           User.displayName := Some "Ann"; User.emailVerified := false |} /\
  Some "a@b.com" = Some "a@b.com" /\
  trace o =
    [ CreateUser "a@b.com" "password123";
      UpdateProfile "uid-1" "Ann";
      SendEmailVerification "uid-1";
      SetUserDoc "uid-1" profile ] /\
  count_calls is_verification_mail (trace o) = 1 /\
  count_calls (is_profile_write "uid-1") (trace o) = 1 /\
  users (store o) = <["uid-1" := profile]> ∅ /\
  inventory (store o) = ∅.
Proof.
  apply (signUp_scenario (Scenario.env_ok "web") Scenario.empty_store
           (Scenario.fresh_user "a@b.com"));
    reflexivity.
Defined.

(** ** Federated sign-in: the profile block *)

(** The four ways through the block: the read rejects; a document exists;
    the write rejects; the write resolves. *)
Lemma storeGoogleUserIfNew_cases (env : Env) (user : User.t) (fs : Firestore) :
  let uid := User.uid user in
  let d := googleUserData env user in
  storeGoogleUserIfNew env user fs =
  match getDoc_error env "users" uid with
  | Some e => mkOutcome (inl e) fs [GetUserDoc uid]
  | None =>
      match users fs !! uid with
      | Some _ => mkOutcome (inr tt) fs [GetUserDoc uid]
      | None =>
          match setDoc_error env "users" uid with
          | Some e => mkOutcome (inl e) fs [GetUserDoc uid; SetUserDoc uid d]
          | None =>
              mkOutcome (inr tt)
                {| users := <[uid := d]> (users fs); inventory := inventory fs |}
                [GetUserDoc uid; SetUserDoc uid d]
          end
      end
  end.
Proof.
  cbn zeta. unfold storeGoogleUserIfNew, getDoc_users, setDoc_users, googleUserData.
  unfold_M. cbn.
  destruct (getDoc_error env "users" (User.uid user)); cbn; [reflexivity|].
  destruct (users fs !! User.uid user); cbn; [reflexivity|].
  destruct (setDoc_error env "users" (User.uid user)); reflexivity.
Qed.

(** ** Federated sign-in: the [catch] block *)

Lemma DEVELOPER_ERROR_message_nonempty (s : string) :
  DEVELOPER_ERROR_message s <> "".
Proof. unfold DEVELOPER_ERROR_message. cbn. discriminate. Qed.

(** Whatever it is given, the [catch] block throws a fresh [Error], which
    has no [code] and a message that is not empty; it calls nothing. *)
Lemma signInWithGoogle_catch_throws (ms : ModuleState) (e : Js.Error)
    (fs : Firestore) :
  exists msg,
    signInWithGoogle_catch ms e fs = mkOutcome (inl (Js.new_Error msg)) fs [] /\
    msg <> "".
Proof.
  unfold signInWithGoogle_catch, throw.
  repeat match goal with
         | |- context [if ?b then _ else _] => destruct b
         end;
    eexists; (split; [reflexivity|]);
    first [ discriminate
          | apply DEVELOPER_ERROR_message_nonempty
          | apply or_str_nonempty; discriminate ].
Qed.

(** ** Federated sign-in: the [try] block *)

(** Either the block stops before it has a Firebase user, having touched
    no profile, or it ends with the profile block for the user it
    obtained. *)
Lemma signInWithGoogle_try_shape (env : Env) (ms : ModuleState) (fs : Firestore) :
  let o := signInWithGoogle_try env ms fs in
  (store o = fs /\ (exists e, result o = inl e) /\
   Forall (fun c => is_user_doc c = false) (trace o)) \/
  (exists pre user,
     let s := storeGoogleUserIfNew env user fs in
     Forall (fun c => is_user_doc c = false) pre /\
     (signInWithPopup env = inr user \/
      exists idToken, signInWithCredential env idToken = inr user) /\
     trace o = (pre ++ trace s)%list /\ store o = store s /\
     result o = match result s with inl e => inl e | inr _ => inr user end).
Proof.
  cbn zeta. unfold signInWithGoogle_try.
  destruct (String.eqb (Platform_OS env) "web").
  - unfold_M. cbn.
    destruct (signInWithPopup env) as [e|user] eqn:Hpop; cbn.
    + left. repeat split; [by eexists | repeat constructor].
    + right. exists [SignInWithPopup], user. cbn.
      split; [repeat constructor|]. split; [by left|].
      destruct (result (storeGoogleUserIfNew env user fs)); cbn;
        rewrite ?app_nil_r; auto.
  - destruct (negb (isGoogleSignInAvailable ms) || negb (GoogleSignin ms)).
    + left. cbn. repeat split; [by eexists | constructor].
    + unfold_M. cbn.
      destruct (hasPlayServices env); cbn.
      { left. repeat split; [by eexists | repeat constructor]. }
      destruct (google_signOut env); cbn;
        (destruct (google_signIn env) as [?|userInfo]; cbn;
         [ left; repeat split; [by eexists | repeat constructor] | ]);
        (destruct (negb (Js.truthy _)); cbn;
         [ left; repeat split; [by eexists | repeat constructor] | ]);
        (match goal with
         | |- context [signInWithCredential env ?t] =>
             destruct (signInWithCredential env t) as [?|user] eqn:Hcred
         end; cbn;
         [ left; repeat split; [by eexists | repeat constructor] | ]);
        right;
        exists [GoogleHasPlayServices; GoogleSignOut; GoogleSignIn;
                SignInWithCredential
                  (default ""
                     (Js.or_else (idToken userInfo)
                        match data userInfo with Some t => t | None => None end))],
               user; cbn;
        (split; [repeat constructor|]); (split; [right; by eexists|]);
        destruct (result (storeGoogleUserIfNew env user fs)); cbn;
        rewrite ?app_nil_r; auto.
Qed.

(** ** Federated sign-in as a whole *)

Lemma signInWithGoogle_shape (env : Env) (ms : ModuleState) (fs : Firestore) :
  let o := signInWithGoogle env ms fs in
  (store o = fs /\ (exists msg, result o = inl (Js.new_Error msg) /\ msg <> "") /\
   Forall (fun c => is_user_doc c = false) (trace o)) \/
  (exists pre user,
     let s := storeGoogleUserIfNew env user fs in
     Forall (fun c => is_user_doc c = false) pre /\
     (signInWithPopup env = inr user \/
      exists idToken, signInWithCredential env idToken = inr user) /\
     trace o = (pre ++ trace s)%list /\ store o = store s /\
     result o = match result s with
                | inl e => result (signInWithGoogle_catch ms e (store s))
                | inr _ => inr user
                end).
Proof.
  cbn zeta. unfold signInWithGoogle, try_catch.
  destruct (signInWithGoogle_try_shape env ms fs)
    as [(Hst & (e & He) & Htr) | (pre & user & Hpre & Hsrc & Htr & Hst & Hres)].
  - left. rewrite He. cbn.
    destruct (signInWithGoogle_catch_throws ms e
                (store (signInWithGoogle_try env ms fs))) as (msg & -> & Hmsg).
    cbn. rewrite app_nil_r. repeat split; [assumption | by exists msg | assumption].
  - right. exists pre, user. cbn zeta.
    split; [assumption|]. split; [assumption|].
    rewrite Hres.
    destruct (result (storeGoogleUserIfNew env user fs)) as [e|[]] eqn:Hs.
    + destruct (signInWithGoogle_catch_throws ms e
                  (store (signInWithGoogle_try env ms fs))) as (msg & Hc & Hmsg).
      rewrite Hc. cbn. rewrite app_nil_r, <- Hst, Hc. auto.
    + rewrite Hres. auto.
Qed.

Lemma count_calls_app (f : Call -> bool) (tr1 tr2 : list Call) :
  count_calls f (tr1 ++ tr2) = count_calls f tr1 + count_calls f tr2.
Proof. unfold count_calls. by rewrite List.filter_app, length_app. Qed.

Lemma count_profile_write_other (uid : string) (tr : list Call) :
  Forall (fun c => is_user_doc c = false) tr ->
  count_calls (is_profile_write uid) tr = 0.
Proof.
  unfold count_calls. induction 1 as [|c tr Hc _ IH]; [reflexivity|].
  cbn. destruct c; try discriminate; exact IH.
Qed.

Lemma not_user_doc_not_in (tr : list Call) (c : Call) :
  Forall (fun c => is_user_doc c = false) tr -> is_user_doc c = true -> c ∉ tr.
Proof.
  intros Hall Hc Hin. rewrite Forall_forall in Hall.
  specialize (Hall c Hin). congruence.
Qed.

(** ** Sign-up: the profile write *)

(** [signUpWithEmail] never reads a profile, and a profile write, when it
    makes one, is its last call: it follows the successful creation of the
    account, is for that account's uid, and its outcome decides the
    outcome of the whole operation. *)
Lemma signUpWithEmail_profile_write (env : Env) (email password : string)
    (fullName username : option string) (fs : Firestore) :
  let o := signUpWithEmail env email password fullName username fs in
  (forall uid, GetUserDoc uid ∉ trace o) /\
  (forall uid d, SetUserDoc uid d ∈ trace o ->
     Js.truthy username || Js.truthy fullName = true /\
     (exists u, createUserWithEmailAndPassword env email password = inr u /\
                User.uid u = uid /\
                d = {| UserData.email := Js.or_str (User.email u) "";
                       UserData.fullName := Js.or_str fullName "";
                       UserData.username := Js.or_str username "";
                       UserData.createdAt := now env;
                       UserData.emailVerified := false |}) /\
     match setDoc_error env "users" uid with
     | Some e => result o = inl (handleAuthError e) /\ store o = fs
     | None =>
         (exists u, result o = inr u /\ User.uid u = uid) /\
         store o = {| users := <[uid := d]> (users fs);
                      inventory := inventory fs |}
     end).
Proof.
  cbn zeta. unfold signUpWithEmail, setDoc_users. unfold_M. cbn.
  destruct (createUserWithEmailAndPassword env email password) as [e|u]; cbn.
  { split; [intros uid|intros uid d]; not_in_trace. }
  destruct (Js.truthy fullName) eqn:Hfull; cbn.
  - destruct (updateProfile env u (default "" fullName)); cbn.
    { split; [intros uid|intros uid d]; not_in_trace. }
    destruct (sendEmailVerification env _); cbn.
    { split; [intros uid|intros uid d]; not_in_trace. }
    rewrite orb_true_r. cbn.
    destruct (setDoc_error env "users" (User.uid u)) eqn:Hset; cbn.
    + split; [intros uid; not_in_trace|]. intros uid d Hin.
      repeat (apply elem_of_cons in Hin as [Hin|Hin]; [try discriminate Hin|]);
        [|by apply elem_of_nil in Hin].
      injection Hin as -> ->. rewrite Hset.
      repeat split; eauto.
    + split; [intros uid; not_in_trace|]. intros uid d Hin.
      repeat (apply elem_of_cons in Hin as [Hin|Hin]; [try discriminate Hin|]);
        [|by apply elem_of_nil in Hin].
      injection Hin as -> ->. rewrite Hset.
      repeat split; eauto.
  - destruct (sendEmailVerification env u); cbn.
    { split; [intros uid|intros uid d]; not_in_trace. }
    rewrite orb_false_r.
    destruct (Js.truthy username) eqn:Huser; cbn.
    + destruct (setDoc_error env "users" (User.uid u)) eqn:Hset; cbn.
      * split; [intros uid; not_in_trace|]. intros uid d Hin.
        repeat (apply elem_of_cons in Hin as [Hin|Hin]; [try discriminate Hin|]);
          [|by apply elem_of_nil in Hin].
        injection Hin as -> ->. rewrite Hset.
        repeat split; eauto.
      * split; [intros uid; not_in_trace|]. intros uid d Hin.
        repeat (apply elem_of_cons in Hin as [Hin|Hin]; [try discriminate Hin|]);
          [|by apply elem_of_nil in Hin].
        injection Hin as -> ->. rewrite Hset.
        repeat split; eauto.
    + split; [intros uid|intros uid d]; not_in_trace.
Qed.

(** ** When a profile is written *)

(** Signing up for an account whose uid already has a profile: the stored
    profile is replaced, and it was never read. *)
Lemma signUpWithEmail_overwrites_profile :
  let env := Scenario.env_ok "web" in
  let o := signUpWithEmail env "a@b.com" "password123" (Some "Ann") None
             Scenario.store_with_profile in
  users Scenario.store_with_profile !! "uid-1" = Some Scenario.old_profile /\
  result o = inr {| User.uid := "uid-1"; User.email := Some "a@b.com";
                    User.displayName := Some "Ann";
                    User.emailVerified := false |} /\
  count_calls (is_profile_read "uid-1") (trace o) = 0 /\
  count_calls (is_profile_write "uid-1") (trace o) = 1 /\
  users (store o) !! "uid-1" =
    Some {| UserData.email := "a@b.com"; UserData.fullName := "Ann";
            UserData.username := ""; UserData.createdAt := now env;
            UserData.emailVerified := false |}.
Proof. vm_compute. repeat split. Qed.

(** C1 (amended). Federated sign-in gates the profile write on a read: a
    write of a profile is the last call of [signInWithGoogle], it comes
    directly after the read of the same uid's profile, no other call
    touches a profile, and there was no profile for that uid; profiles
    that exist are still there afterwards, unchanged.  Sign-up does not:
    [signUpWithEmail] never reads a profile; it writes one exactly when a
    user name or a full name is given, and when it resolves after that
    write the new profile is what Firestore holds for the uid, whatever
    was there before. *)
Theorem profile_write_gate (env : Env) (ms : ModuleState) (fs : Firestore)
    (email password : string) (fullName username : option string) :
  let g := signInWithGoogle env ms fs in
  let s := signUpWithEmail env email password fullName username fs in
  (forall uid d, SetUserDoc uid d ∈ trace g ->
     (exists pre, trace g = (pre ++ [GetUserDoc uid; SetUserDoc uid d])%list /\
                  Forall (fun c => is_user_doc c = false) pre) /\
     users fs !! uid = None) /\
  (forall uid d, users fs !! uid = Some d -> users (store g) !! uid = Some d) /\
  (forall uid, GetUserDoc uid ∉ trace s) /\
  (forall uid d, SetUserDoc uid d ∈ trace s ->
     Js.truthy username || Js.truthy fullName = true) /\
  (forall u, result s = inr u ->
     if Js.truthy username || Js.truthy fullName
     then users (store s) !! User.uid u =
            Some {| UserData.email := Js.or_str (User.email u) "";
                    UserData.fullName := Js.or_str fullName "";
                    UserData.username := Js.or_str username "";
                    UserData.createdAt := now env;
                    UserData.emailVerified := false |}
     else store s = fs).
Proof.
  cbn zeta. split; [|split; [|split; [|split]]].
  - intros uid d Hin.
    destruct (signInWithGoogle_shape env ms fs)
      as [(_ & _ & Htr) | (pre & user & Hpre & _ & Htr & _ & _)].
    + exfalso. by apply (not_user_doc_not_in _ (SetUserDoc uid d) Htr eq_refl Hin).
    + rewrite Htr in Hin |- *. apply elem_of_app in Hin as [Hin|Hin].
      { exfalso. by apply (not_user_doc_not_in _ (SetUserDoc uid d) Hpre eq_refl Hin). }
      rewrite storeGoogleUserIfNew_cases in Hin |- *. cbn zeta in *.
      destruct (getDoc_error env "users" (User.uid user));
        [cbn in Hin; revert Hin; not_in_trace|].
      destruct (users fs !! User.uid user) eqn:Hdoc;
        [cbn in Hin; revert Hin; not_in_trace|].
      assert (uid = User.uid user /\ d = googleUserData env user) as [-> ->].
      { destruct (setDoc_error env "users" (User.uid user)); cbn in Hin;
          (apply elem_of_cons in Hin as [Hin|Hin]; [discriminate Hin|]);
          (apply elem_of_cons in Hin as [Hin|Hin];
             [by injection Hin | by apply elem_of_nil in Hin]). }
      split; [|assumption]. exists pre.
      destruct (setDoc_error env "users" (User.uid user)); cbn; auto.
  - intros uid d Hd.
    destruct (signInWithGoogle_shape env ms fs)
      as [(-> & _ & _) | (pre & user & _ & _ & _ & -> & _)]; [assumption|].
    rewrite storeGoogleUserIfNew_cases. cbn zeta.
    destruct (getDoc_error env "users" (User.uid user)); [assumption|].
    destruct (users fs !! User.uid user) eqn:Hdoc; [assumption|].
    destruct (setDoc_error env "users" (User.uid user)); cbn; [assumption|].
    rewrite lookup_insert_ne; [assumption|]. intros <-. congruence.
  - apply signUpWithEmail_profile_write.
  - intros uid d Hin.
    by apply (signUpWithEmail_profile_write env email password fullName
                username fs) in Hin as [? _].
  - intros u Hres.
    unfold signUpWithEmail, setDoc_users in *. unfold_M. cbn in *.
    destruct (createUserWithEmailAndPassword env email password) as [e|u0];
      cbn in *; [discriminate|].
    destruct (Js.truthy fullName) eqn:Hfull; cbn in *.
    + destruct (updateProfile env u0 (default "" fullName)); cbn in *;
        [discriminate|].
      destruct (sendEmailVerification env _); cbn in *; [discriminate|].
      rewrite orb_true_r in *. cbn in *.
      destruct (setDoc_error env "users" (User.uid u0)); cbn in *;
        [discriminate|].
      injection Hres as <-. cbn. by rewrite lookup_insert_eq.
    + destruct (sendEmailVerification env u0); cbn in *; [discriminate|].
      rewrite orb_false_r in *.
      destruct (Js.truthy username); cbn in *.
      * destruct (setDoc_error env "users" (User.uid u0)); cbn in *;
          [discriminate|].
        injection Hres as <-. cbn. by rewrite lookup_insert_eq.
      * reflexivity.
Qed.

(** ** When the profile write fails *)

(** The account is created, or Google's credential accepted, and the
    profile write is refused: both operations reject. *)
Lemma profile_write_failure_is_surfaced :
  let env := Scenario.env_profile_write_fails "web" in
  let s := signUpWithEmail env "a@b.com" "password123" (Some "Ann") None
             Scenario.empty_store in
  let g := signInWithGoogle env (module_init "web" None) Scenario.empty_store in
  createUserWithEmailAndPassword env "a@b.com" "password123" =
    inr (Scenario.fresh_user "a@b.com") /\
  signInWithPopup env = inr Scenario.google_user /\
  result s = inl {| Js.name := "Error"; Js.code := Some "resource-exhausted";
                    Js.message := Some "Quota exceeded." |} /\
  result g = inl {| Js.name := "Error"; Js.code := None;
                    Js.message := Some "Quota exceeded." |}.
Proof. vm_compute. repeat split. Qed.

(** C2 (amended). A failed profile write fails the operation.  If the
    write of the profile of [uid] is refused with [e], then a sign-up that
    got as far as that write (its account was created) rejects with
    [handleAuthError e], and a federated sign-in that got as far as that
    write (Google's credential was accepted) rejects with what its [catch]
    block makes of [e], a plain [Error]; neither returns the user, and
    Firestore is as it was. *)
Theorem profile_write_failure_rejects (env : Env) (ms : ModuleState)
    (fs : Firestore) (email password : string) (fullName username : option string)
    (uid : string) (d : UserData.t) (e : Js.Error) :
  setDoc_error env "users" uid = Some e ->
  let s := signUpWithEmail env email password fullName username fs in
  let g := signInWithGoogle env ms fs in
  (SetUserDoc uid d ∈ trace s ->
     (exists u, createUserWithEmailAndPassword env email password = inr u /\
                User.uid u = uid) /\
     result s = inl (handleAuthError e) /\ store s = fs) /\
  (SetUserDoc uid d ∈ trace g ->
     (exists u, (signInWithPopup env = inr u \/
                 exists idToken, signInWithCredential env idToken = inr u) /\
                User.uid u = uid) /\
     result g = result (signInWithGoogle_catch ms e fs) /\
     (exists msg, result g = inl (Js.new_Error msg) /\ msg <> "") /\
     store g = fs).
Proof.
  intros Hset. cbn zeta. split.
  - intros Hin.
    apply (signUpWithEmail_profile_write env email password fullName username fs)
      in Hin as (_ & (u & Hu & Huid & _) & Hout).
    rewrite Hset in Hout. destruct Hout as [Hres Hst]. eauto.
  - intros Hin.
    destruct (signInWithGoogle_shape env ms fs)
      as [(_ & _ & Htr) | (pre & user & Hpre & Hsrc & Htr & Hst & Hres)].
    { exfalso. by apply (not_user_doc_not_in _ (SetUserDoc uid d) Htr eq_refl Hin). }
    cbn zeta in *. rewrite Htr in Hin. apply elem_of_app in Hin as [Hin|Hin].
    { exfalso. by apply (not_user_doc_not_in _ (SetUserDoc uid d) Hpre eq_refl Hin). }
    rewrite storeGoogleUserIfNew_cases in Hin, Hst, Hres. cbn zeta in *.
    destruct (getDoc_error env "users" (User.uid user));
      [cbn in Hin; revert Hin; not_in_trace|].
    destruct (users fs !! User.uid user) eqn:Hdoc;
      [cbn in Hin; revert Hin; not_in_trace|].
    assert (uid = User.uid user) as ->.
    { destruct (setDoc_error env "users" (User.uid user)); cbn in Hin;
        (apply elem_of_cons in Hin as [Hin|Hin]; [discriminate Hin|]);
        (apply elem_of_cons in Hin as [Hin|Hin];
           [by injection Hin | by apply elem_of_nil in Hin]). }
    rewrite Hset in Hst, Hres. cbn in Hst, Hres.
    destruct (signInWithGoogle_catch_throws ms e fs) as (msg & Hc & Hmsg).
    rewrite Hres, Hst, Hc. cbn. repeat split; eauto.
Qed.

Lemma profile_write_failure_rejects_witness :
  let env := Scenario.env_profile_write_fails "android" in
  let ms := module_init "android" (Some Scenario.native_codes) in
  let s := signUpWithEmail env "a@b.com" "password123" None (Some "ann")
             Scenario.empty_store in
  let g := signInWithGoogle env ms Scenario.empty_store in
  (result s = inl (handleAuthError Scenario.quota_error) /\
   store s = Scenario.empty_store) /\
  (result g = inl (Js.new_Error "Quota exceeded.") /\
   store g = Scenario.empty_store).
Proof.
  split.
  - apply (profile_write_failure_rejects
             (Scenario.env_profile_write_fails "android")
             (module_init "android" (Some Scenario.native_codes))
             Scenario.empty_store "a@b.com" "password123" None (Some "ann")
             "uid-1"
             {| UserData.email := "a@b.com"; UserData.fullName := "";
                UserData.username := "ann";
                UserData.createdAt := "2024-05-01T10:00:00.000Z";
                UserData.emailVerified := false |}
             Scenario.quota_error eq_refl).
    vm_compute. apply list_elem_of_further, list_elem_of_further, list_elem_of_here.
  - pose proof (profile_write_failure_rejects
             (Scenario.env_profile_write_fails "android")
             (module_init "android" (Some Scenario.native_codes))
             Scenario.empty_store "a@b.com" "password123" None (Some "ann")
             "uid-g"
             {| UserData.email := "g@b.com"; UserData.fullName := "Gil";
                UserData.username := "";
                UserData.createdAt := "2024-05-01T10:00:00.000Z";
                UserData.emailVerified := true |}
             Scenario.quota_error eq_refl) as [_ Hg].
    destruct Hg as (_ & Hres & _ & Hst).
    + vm_compute. do 5 apply list_elem_of_further. apply list_elem_of_here.
    + split; [exact Hres | exact Hst].
Defined.

(** ** Federated sign-in, twice *)

(** A federated sign-in that resolves has read the user's profile, and
    written it just in case there was none. *)
Lemma signInWithGoogle_resolved (env : Env) (ms : ModuleState) (fs : Firestore)
    (u : User.t) :
  let o := signInWithGoogle env ms fs in
  let uid := User.uid u in
  result o = inr u ->
  exists pre,
    Forall (fun c => is_user_doc c = false) pre /\
    ((is_Some (users fs !! uid) /\
      trace o = (pre ++ [GetUserDoc uid])%list /\ store o = fs) \/
     (users fs !! uid = None /\
      trace o = (pre ++ [GetUserDoc uid;
                         SetUserDoc uid (googleUserData env u)])%list /\
      store o = {| users := <[uid := googleUserData env u]> (users fs);
                   inventory := inventory fs |})).
Proof.
  cbn zeta. intros Hres.
  destruct (signInWithGoogle_shape env ms fs)
    as [(_ & (msg & Hmsg & _) & _) | (pre & user & Hpre & _ & Htr & Hst & Hr)];
    [congruence|].
  cbn zeta in *. rewrite Hres in Hr. rewrite Htr, Hst.
  rewrite storeGoogleUserIfNew_cases in Hr |- *. cbn zeta in *.
  exists pre. split; [assumption|].
  destruct (getDoc_error env "users" (User.uid user)) as [e|]; cbn in Hr.
  { destruct (signInWithGoogle_catch_throws ms e fs) as (msg & Hc & _).
    rewrite Hc in Hr. discriminate. }
  destruct (users fs !! User.uid user) eqn:Hdoc; cbn in Hr.
  { injection Hr as ->. left. rewrite Hdoc. cbn. eauto. }
  destruct (setDoc_error env "users" (User.uid user)) as [e|]; cbn in Hr.
  { destruct (signInWithGoogle_catch_throws ms e fs) as (msg & Hc & _).
    rewrite Hc in Hr. discriminate. }
  injection Hr as ->. right. cbn. auto.
Qed.

(** C3. Two federated sign-ins in a row that both resolve, for the same
    uid: the second changes nothing in Firestore and writes no profile;
    over both there is at most one profile write for the uid, exactly one
    if the uid had no profile at the start; afterwards the uid has its one
    profile document, and the profiles of other uids are as they were.  A
    profile written by the first sign-in has [emailVerified] set, and it
    is the document that is there after the second. *)
Theorem signInWithGoogle_twice (env1 env2 : Env) (ms1 ms2 : ModuleState)
    (fs : Firestore) (u1 u2 : User.t) :
  let o1 := signInWithGoogle env1 ms1 fs in
  let o2 := signInWithGoogle env2 ms2 (store o1) in
  let uid := User.uid u1 in
  result o1 = inr u1 -> result o2 = inr u2 -> User.uid u2 = uid ->
  store o2 = store o1 /\
  count_calls (is_profile_write uid) (trace o2) = 0 /\
  count_calls (is_profile_write uid) (trace o1 ++ trace o2)%list =
    (if decide (users fs !! uid = None) then 1 else 0) /\
  is_Some (users (store o2) !! uid) /\
  (forall uid', uid' <> uid -> users (store o2) !! uid' = users fs !! uid') /\
  (forall d, SetUserDoc uid d ∈ trace o1 ->
     UserData.emailVerified d = true /\ users (store o2) !! uid = Some d).
Proof.
  cbn zeta. intros H1 H2 Huid.
  apply signInWithGoogle_resolved in H1 as (pre1 & Hpre1 & H1).
  apply signInWithGoogle_resolved in H2 as (pre2 & Hpre2 & H2).
  rewrite Huid in H2.
  assert (is_Some (users (store (signInWithGoogle env1 ms1 fs)) !! User.uid u1))
    as Hsome.
  { destruct H1 as [(Hs & _ & ->) | (_ & _ & ->)]; [assumption|].
    cbn. rewrite lookup_insert_eq. by eexists. }
  destruct H2 as [(_ & Htr2 & Hst2) | (Hnone & _ & _)];
    [|rewrite Hnone in Hsome; by destruct Hsome].
  assert (count_calls (is_profile_write (User.uid u1))
            (trace (signInWithGoogle env2 ms2
                      (store (signInWithGoogle env1 ms1 fs)))) = 0) as Hc2.
  { rewrite Htr2, count_calls_app, (count_profile_write_other _ _ Hpre2).
    reflexivity. }
  split; [assumption|]. split; [assumption|].
  rewrite count_calls_app, Hc2, Hst2, Nat.add_0_r.
  destruct H1 as [(Hs & Htr1 & Hst1) | (Hnone & Htr1 & Hst1)];
    rewrite Htr1, Hst1, count_calls_app, (count_profile_write_other _ _ Hpre1).
  - split.
    { destruct (decide (users fs !! User.uid u1 = None)) as [Hn|_];
        [rewrite Hn in Hs; by destruct Hs | reflexivity]. }
    split; [assumption|]. split; [reflexivity|].
    intros d Hin. exfalso.
    apply elem_of_app in Hin as [Hin|Hin].
    + by apply (not_user_doc_not_in _ (SetUserDoc (User.uid u1) d) Hpre1 eq_refl).
    + revert Hin. not_in_trace.
  - split.
    { destruct (decide (users fs !! User.uid u1 = None)) as [_|Hn];
        [|contradiction].
      unfold count_calls. cbn. by rewrite String.eqb_refl. }
    cbn. split; [rewrite lookup_insert_eq; by eexists|].
    split; [intros uid' Hne; by rewrite lookup_insert_ne|].
    intros d Hin. apply elem_of_app in Hin as [Hin|Hin].
    + exfalso.
      by apply (not_user_doc_not_in _ (SetUserDoc (User.uid u1) d) Hpre1 eq_refl).
    + apply elem_of_cons in Hin as [Hin|Hin]; [discriminate Hin|].
      apply elem_of_cons in Hin as [Hin|Hin]; [|by apply elem_of_nil in Hin].
      injection Hin as ->. split; [reflexivity | by rewrite lookup_insert_eq].
Qed.

Lemma signInWithGoogle_twice_witness :
  let env1 := Scenario.env_ok "web" in
  let env2 := Scenario.env_ok "android" in
  let ms1 := module_init "web" None in
  let ms2 := module_init "android" (Some Scenario.native_codes) in
  let o1 := signInWithGoogle env1 ms1 Scenario.store_with_profile in
  let o2 := signInWithGoogle env2 ms2 (store o1) in
  store o2 = store o1 /\
  count_calls (is_profile_write "uid-g") (trace o2) = 0 /\
  count_calls (is_profile_write "uid-g") (trace o1 ++ trace o2)%list = 1 /\
  is_Some (users (store o2) !! "uid-g") /\
  (forall uid', uid' <> "uid-g" ->
     users (store o2) !! uid' = users Scenario.store_with_profile !! uid') /\
  (forall d, SetUserDoc "uid-g" d ∈ trace o1 ->
     UserData.emailVerified d = true /\ users (store o2) !! "uid-g" = Some d).
Proof.
  apply (signInWithGoogle_twice (Scenario.env_ok "web") (Scenario.env_ok "android")
           (module_init "web" None)
           (module_init "android" (Some Scenario.native_codes))
           Scenario.store_with_profile Scenario.google_user Scenario.google_user);
    reflexivity.
Defined.

(** ** Seeding the inventory *)

(** One turn of the loop never rejects.  Its four ways: the read rejects;
    the document exists; the write rejects; the write resolves. *)
Lemma seed_product_cases (env : Env) (p : Product.t) (rs : list SeedEntry)
    (fs : Firestore) :
  let id := Product.id p in
  seed_product env p rs fs =
  match getDoc_error env "inventory" id with
  | Some e =>
      mkOutcome (inr (rs ++ [seed_entry p "error" "failed" (Some (Js.message e))])%list)
        fs [GetInventoryDoc id]
  | None =>
      match inventory fs !! id with
      | Some _ =>
          mkOutcome (inr (rs ++ [seed_entry p "exists" "skipped" None])%list)
            fs [GetInventoryDoc id]
      | None =>
          match setDoc_error env "inventory" id with
          | Some e =>
              mkOutcome
                (inr (rs ++ [seed_entry p "error" "failed" (Some (Js.message e))])%list)
                fs [GetInventoryDoc id; SetInventoryDoc id p]
          | None =>
              mkOutcome (inr (rs ++ [seed_entry p "added" "success" None])%list)
                {| users := users fs; inventory := <[id := p]> (inventory fs) |}
                [GetInventoryDoc id; SetInventoryDoc id p]
          end
      end
  end.
Proof.
  cbn zeta. unfold seed_product, getDoc_inventory, setDoc_inventory, seed_entry.
  unfold_M. destruct p as [id name description price stock imageKey]. cbn.
  destruct (getDoc_error env "inventory" id); cbn; [reflexivity|].
  destruct (inventory fs !! id); cbn; [reflexivity|].
  destruct (setDoc_error env "inventory" id); reflexivity.
Qed.

(** What one turn of the loop guarantees. *)
Lemma seed_product_spec (env : Env) (p : Product.t) (rs : list SeedEntry)
    (fs : Firestore) :
  let o := seed_product env p rs fs in
  let id := Product.id p in
  exists en,
    result o = inr (rs ++ [en])%list /\
    se_id en = id /\
    (se_status en = "success" \/ se_status en = "skipped" \/
     se_status en = "failed") /\
    users (store o) = users fs /\
    inventory fs ⊆ inventory (store o) /\
    (forall id' d, SetInventoryDoc id' d ∈ trace o ->
       id' = id /\ d = p /\ inventory fs !! id = None) /\
    (se_status en <> "failed" -> inventory (store o) !! id <> None) /\
    (se_status en = "failed" ->
       getDoc_error env "inventory" id <> None \/
       setDoc_error env "inventory" id <> None) /\
    (is_Some (inventory fs !! id) -> se_status en <> "success") /\
    (inventory fs !! id <> None \/ getDoc_error env "inventory" id <> None \/
     setDoc_error env "inventory" id <> None -> store o = fs) /\
    (inventory (store o) !! id <> None \/
     getDoc_error env "inventory" id <> None \/
     setDoc_error env "inventory" id <> None) /\
    (forall id' d, inventory (store o) !! id' = Some d ->
       inventory fs !! id' = Some d \/ (id' = id /\ d = p)).
Proof.
  cbn zeta. rewrite seed_product_cases. cbn zeta.
  destruct (getDoc_error env "inventory" (Product.id p)) as [e|] eqn:Hget;
    [|destruct (inventory fs !! Product.id p) as [d0|] eqn:Hdoc;
      [|destruct (setDoc_error env "inventory" (Product.id p)) as [e|] eqn:Hset]];
    (eexists; cbn; split; [reflexivity|]);
    repeat match goal with |- _ /\ _ => split end;
    try first
      [ reflexivity
      | discriminate
      | by auto
      | by apply insert_subseteq
      | by rewrite lookup_insert_eq
      | intros; congruence
      | intros [? ?]; congruence
      | intros [?|[?|?]]; congruence
      | left; congruence
      | right; left; congruence
      | right; right; congruence
      | left; by rewrite lookup_insert_eq
      | intros ? ? Hin; revert Hin; not_in_trace
      | intros id' d Hin;
        (apply elem_of_cons in Hin as [Hin|Hin]; [discriminate Hin|]);
        (apply elem_of_cons in Hin as [Hin|Hin]; [|by apply elem_of_nil in Hin]);
        injection Hin as -> ->; by auto ].
  intros id' d Hd. destruct (decide (id' = Product.id p)) as [->|Hne].
  - rewrite lookup_insert_eq in Hd. injection Hd as <-. by right.
  - rewrite lookup_insert_ne in Hd by congruence. by left.
Qed.

Lemma seed_loop_cons (env : Env) (p : Product.t) (ps : list Product.t)
    (rs : list SeedEntry) (fs : Firestore) (en : SeedEntry) :
  result (seed_product env p rs fs) = inr (rs ++ [en])%list ->
  let o1 := seed_product env p rs fs in
  let o2 := seed_loop env ps (rs ++ [en])%list (store o1) in
  seed_loop env (p :: ps) rs fs =
  mkOutcome (result o2) (store o2) (trace o1 ++ trace o2)%list.
Proof. intros H. cbn [seed_loop]. by rewrite (bind_inr _ _ _ _ H). Qed.

(** The loop as a whole: it never rejects and pushes one entry per
    product, in order; it only adds documents, and only where there was
    none. *)
Lemma seed_loop_spec (env : Env) (ps : list Product.t) :
  forall (rs : list SeedEntry) (fs : Firestore),
  let o := seed_loop env ps rs fs in
  exists es,
    result o = inr (rs ++ es)%list /\
    map se_id es = map Product.id ps /\
    Forall (fun en => se_status en = "success" \/ se_status en = "skipped" \/
                      se_status en = "failed") es /\
    users (store o) = users fs /\
    inventory fs ⊆ inventory (store o) /\
    (forall id d, SetInventoryDoc id d ∈ trace o ->
       inventory fs !! id = None /\ d ∈ ps /\ Product.id d = id) /\
    (forall en, en ∈ es -> se_status en <> "failed" ->
       inventory (store o) !! se_id en <> None) /\
    (forall en, en ∈ es -> se_status en = "failed" ->
       getDoc_error env "inventory" (se_id en) <> None \/
       setDoc_error env "inventory" (se_id en) <> None) /\
    (forall p, p ∈ ps ->
       inventory (store o) !! Product.id p <> None \/
       getDoc_error env "inventory" (Product.id p) <> None \/
       setDoc_error env "inventory" (Product.id p) <> None) /\
    (forall id d, inventory (store o) !! id = Some d ->
       inventory fs !! id = Some d \/ (d ∈ ps /\ Product.id d = id)).
Proof.
  induction ps as [|p ps IH]; intros rs fs; cbn zeta.
  - exists []. cbn. rewrite app_nil_r.
    repeat match goal with |- _ /\ _ => split end;
      try first [ reflexivity | by constructor | by auto ].
    + intros id d Hin. by apply elem_of_nil in Hin.
    + intros en Hin. by apply elem_of_nil in Hin.
    + intros en Hin. by apply elem_of_nil in Hin.
    + intros q Hin. by apply elem_of_nil in Hin.
  - destruct (seed_product_spec env p rs fs)
      as (en & Hres & Hid & Hstatus & Husers & Hsub & Hwr & Hok & Hfail & _ &
          _ & Hsettled & Hnew).
    cbn zeta in *.
    rewrite (seed_loop_cons _ _ _ _ _ _ Hres). cbn zeta.
    destruct (IH (rs ++ [en])%list (store (seed_product env p rs fs)))
      as (es & Hres2 & Hids & Hstat2 & Husers2 & Hsub2 & Hwr2 & Hok2 & Hfail2 &
          Hsettled2 & Hnew2).
    cbn zeta in *. exists (en :: es). cbn.
    split; [by rewrite Hres2, <- app_assoc|].
    split; [by rewrite Hid, Hids|].
    split; [by constructor|].
    split; [by rewrite Husers2|].
    split; [by etrans|].
    split.
    { intros id d Hin. apply elem_of_app in Hin as [Hin|Hin].
      - apply Hwr in Hin as (-> & -> & Hnone).
        split; [assumption|]. split; [apply list_elem_of_here | reflexivity].
      - apply Hwr2 in Hin as (Hnone & Hin & Hd).
        split; [by eapply lookup_weaken_None|].
        split; [by apply list_elem_of_further | assumption]. }
    split.
    { intros en' Hin Hnf. apply elem_of_cons in Hin as [->|Hin].
      - specialize (Hok Hnf). rewrite Hid.
        destruct (inventory (store (seed_product env p rs fs)) !! Product.id p)
          as [d|] eqn:Hd; [|congruence].
        by rewrite (lookup_weaken _ _ _ _ Hd Hsub2).
      - by apply Hok2. }
    split.
    { intros en' Hin Hf. apply elem_of_cons in Hin as [->|Hin].
      - rewrite Hid. by apply Hfail.
      - by apply Hfail2. }
    split.
    { intros q Hin. apply elem_of_cons in Hin as [->|Hin]; [|by apply Hsettled2].
      destruct Hsettled as [Hpres|Herr]; [|by right].
      left.
      destruct (inventory (store (seed_product env p rs fs)) !! Product.id p)
        as [d|] eqn:Hd; [|congruence].
      by rewrite (lookup_weaken _ _ _ _ Hd Hsub2). }
    intros id d Hd. apply Hnew2 in Hd as [Hd|[Hin Hd]].
    + apply Hnew in Hd as [Hd|[-> ->]]; [by left|].
      right. split; [apply list_elem_of_here | reflexivity].
    + right. split; [by apply list_elem_of_further | assumption].
Qed.

(** Where every product is already there, or cannot be read or written,
    the loop changes nothing. *)
Lemma seed_loop_settled (env : Env) (ps : list Product.t) :
  forall (rs : list SeedEntry) (fs : Firestore),
  (forall p, p ∈ ps ->
     inventory fs !! Product.id p <> None \/
     getDoc_error env "inventory" (Product.id p) <> None \/
     setDoc_error env "inventory" (Product.id p) <> None) ->
  store (seed_loop env ps rs fs) = fs.
Proof.
  induction ps as [|p ps IH]; intros rs fs Hall; [reflexivity|].
  destruct (seed_product_spec env p rs fs)
    as (en & Hres & _ & _ & _ & _ & _ & _ & _ & _ & Hsame & _ & _).
  cbn zeta in *.
  rewrite (seed_loop_cons _ _ _ _ _ _ Hres). cbn zeta. cbn [store].
  rewrite Hsame by (apply Hall, list_elem_of_here).
  apply IH. intros q Hin. by apply Hall, list_elem_of_further.
Qed.

(** Where every product is already there, the loop writes nothing and
    reports nothing as added. *)
Lemma seed_loop_present (env : Env) (ps : list Product.t) :
  forall (rs : list SeedEntry) (fs : Firestore),
  (forall p, p ∈ ps -> inventory fs !! Product.id p <> None) ->
  let o := seed_loop env ps rs fs in
  (forall id d, SetInventoryDoc id d ∉ trace o) /\
  exists es, result o = inr (rs ++ es)%list /\
             Forall (fun en => se_status en <> "success") es.
Proof.
  induction ps as [|p ps IH]; intros rs fs Hall; cbn zeta.
  - split; [intros id d Hin; by apply elem_of_nil in Hin|].
    exists []. cbn. by rewrite app_nil_r.
  - destruct (seed_product_spec env p rs fs)
      as (en & Hres & _ & _ & _ & _ & Hwr & _ & _ & Hskip & Hsame & _ & _).
    cbn zeta in *.
    assert (inventory fs !! Product.id p <> None) as Hp
      by apply Hall, list_elem_of_here.
    rewrite (seed_loop_cons _ _ _ _ _ _ Hres). cbn zeta. cbn [trace result].
    rewrite Hsame by by left.
    destruct (IH (rs ++ [en])%list fs) as (Hwr2 & es & Hres2 & Hes).
    { intros q Hin. by apply Hall, list_elem_of_further. }
    split.
    + intros id d Hin. apply elem_of_app in Hin as [Hin|Hin].
      * apply Hwr in Hin as (_ & _ & Hnone). congruence.
      * by apply (Hwr2 id d).
    + exists (en :: es). split; [by rewrite Hres2, <- app_assoc|].
      constructor; [|assumption]. apply Hskip.
      by apply not_eq_None_Some.
Qed.

(** [seedInventory] is its loop followed by the counting: the outer
    [catch] is never entered. *)
Lemma seedInventory_run (env : Env) (fs : Firestore) :
  let l := seed_loop env productsData [] fs in
  let o := seedInventory env fs in
  exists es r,
    result l = inr es /\ result o = inr r /\
    store o = store l /\ trace o = trace l /\
    results r = es /\
    success r = Nat.eqb (count_status "failed" es) 0 /\
    summary r = {| total := length es;
                   added := count_status "success" es;
                   skipped := count_status "skipped" es;
                   failed := count_status "failed" es |}.
Proof.
  cbn zeta.
  destruct (seed_loop_spec env productsData [] fs) as (es & Hres & _).
  cbn zeta in Hres. rewrite app_nil_l in Hres.
  unfold seedInventory, try_catch.
  rewrite (bind_inr _ _ _ _ Hres). cbn.
  eexists es, _. rewrite app_nil_r. repeat split; assumption.
Qed.

Lemma count_status_zero (s : string) (results : list SeedEntry) :
  count_status s results = 0 <->
  forall en, en ∈ results -> se_status en <> s.
Proof.
  unfold count_status. induction results as [|en rest IH].
  - split; [|reflexivity]. intros _ en Hin. by apply elem_of_nil in Hin.
  - rewrite filter_cons. destruct (decide (se_status en = s)) as [Heq|Hne]; cbn.
    + split; [discriminate|]. intros Hall. exfalso.
      apply (Hall en); [apply list_elem_of_here | assumption].
    + rewrite IH. split.
      * intros Hall en' Hin. apply elem_of_cons in Hin as [->|Hin]; auto.
      * intros Hall en' Hin. by apply Hall, list_elem_of_further.
Qed.

(** What decides the status of an entry. *)
Lemma expected_entry_status (env : Env) (fs : Firestore) (p : Product.t) :
  let en := expected_entry env fs p in
  let id := Product.id p in
  se_id en = id /\ se_name en = Product.name p /\
  (se_status en = "failed" <->
   getDoc_error env "inventory" id <> None \/
   (inventory fs !! id = None /\ setDoc_error env "inventory" id <> None)) /\
  (se_status en = "skipped" <->
   getDoc_error env "inventory" id = None /\ inventory fs !! id <> None) /\
  (se_status en = "success" <->
   getDoc_error env "inventory" id = None /\ inventory fs !! id = None /\
   setDoc_error env "inventory" id = None).
Proof.
  cbn zeta. unfold expected_entry.
  destruct (getDoc_error env "inventory" (Product.id p)) as [e|];
    [|destruct (inventory fs !! Product.id p) as [d|];
      [|destruct (setDoc_error env "inventory" (Product.id p)) as [e|]]];
    cbn; (split; [reflexivity|]); (split; [reflexivity|]);
    repeat match goal with |- _ /\ _ => split | |- _ <-> _ => split end;
    try discriminate; try tauto; try (intros; intuition congruence).
Qed.

(** The loop on products with distinct ids: the entry of each product is
    decided by the answers of the backend for its id and by whether the
    store had a document for it at the start. *)
Lemma seed_loop_entries (env : Env) (fs : Firestore) (ps : list Product.t) :
  NoDup (map Product.id ps) ->
  forall (rs : list SeedEntry) (fs0 : Firestore),
  (forall p, p ∈ ps ->
     inventory fs0 !! Product.id p = inventory fs !! Product.id p) ->
  result (seed_loop env ps rs fs0) =
  inr (rs ++ map (expected_entry env fs) ps)%list.
Proof.
  induction ps as [|p ps IH]; intros Hnd rs fs0 Hagree.
  - cbn. by rewrite app_nil_r.
  - cbn [map] in Hnd. apply NoDup_cons in Hnd as [Hp Hnd].
    assert (result (seed_product env p rs fs0) =
            inr (rs ++ [expected_entry env fs p])%list /\
            forall q, q ∈ ps ->
              inventory (store (seed_product env p rs fs0)) !! Product.id q =
              inventory fs !! Product.id q) as [Hres Hagree'].
    { rewrite seed_product_cases. cbn zeta. unfold expected_entry.
      rewrite <- (Hagree p (list_elem_of_here _ _)).
      assert (forall q, q ∈ ps ->
                inventory fs0 !! Product.id q = inventory fs !! Product.id q)
        as Hrest by (intros q Hq; by apply Hagree, list_elem_of_further).
      destruct (getDoc_error env "inventory" (Product.id p)) as [e|];
        [by split|].
      destruct (inventory fs0 !! Product.id p) as [d|] eqn:Hdoc; [by split|].
      destruct (setDoc_error env "inventory" (Product.id p)) as [e|];
        [by split|].
      split; [reflexivity|]. intros q Hq. cbn.
      rewrite lookup_insert_ne; [by apply Hrest|].
      intros Heq. apply Hp. rewrite Heq. apply list_elem_of_fmap. by exists q. }
    rewrite (seed_loop_cons _ _ _ _ _ _ Hres). cbn zeta. cbn [result map].
    rewrite (IH Hnd _ _ Hagree'). by rewrite <- app_assoc.
Qed.

Lemma productsData_ids_NoDup : NoDup (map Product.id productsData).
Proof. by apply (bool_decide_unpack _). Qed.

Lemma count_status_all (s : string) (es : list SeedEntry) :
  Forall (fun en => se_status en = s) es -> count_status s es = length es.
Proof.
  unfold count_status. induction 1 as [|en es Hen _ IH]; [reflexivity|].
  rewrite filter_cons. destruct (decide (se_status en = s)); [|contradiction].
  cbn. by rewrite IH.
Qed.

(** C10. [seedInventory] never rejects and reports on all thirteen
    products, in their order, whatever fails on the way: a product whose
    own read and write are not refused is in the inventory afterwards.  A
    document is written only for a product id that had none, so documents
    that exist stay as they are.  The entry of each product is decided by
    its own calls: it is failed exactly when the read of its document is
    refused, or the document is missing and its write is refused; skipped
    exactly when the read finds a document; added exactly when the
    document was missing and the write went through.  [success] is true
    exactly when the number of failed entries is zero, that is when no
    entry has the status "failed", that is when none of those calls was
    refused.  Run again, it changes nothing: after a run without failures
    for any answers of the backend (then it writes no document, reports
    none as added and, if the thirteen reads are answered, reports all
    thirteen as skipped, with success), and after any run if the backend
    refuses the same calls as before. *)
Theorem seedInventory_idempotent (env env' : Env) (fs : Firestore) :
  let o := seedInventory env fs in
  let o' := seedInventory env' (store o) in
  exists r r',
    result o = inr r /\ result o' = inr r' /\
    map se_id (results r) = map Product.id productsData /\
    length (results r) = 13 /\
    (forall p, p ∈ productsData ->
       getDoc_error env "inventory" (Product.id p) = None ->
       setDoc_error env "inventory" (Product.id p) = None ->
       is_Some (inventory (store o) !! Product.id p)) /\
    (forall id d, SetInventoryDoc id d ∈ trace o ->
       inventory fs !! id = None /\ d ∈ productsData /\ Product.id d = id) /\
    inventory fs ⊆ inventory (store o) /\
    (success r = true <-> failed (summary r) = 0) /\
    (failed (summary r) = 0 <->
     forall en, en ∈ results r -> se_status en <> "failed") /\
    (success r = true ->
       store o' = store o /\ (forall id d, SetInventoryDoc id d ∉ trace o') /\
       added (summary r') = 0) /\
    (env' = env -> store o' = store o) /\
    results r = map (expected_entry env fs) productsData /\
    (forall en, en ∈ results r ->
       (se_status en = "failed" <->
        getDoc_error env "inventory" (se_id en) <> None \/
        (inventory fs !! se_id en = None /\
         setDoc_error env "inventory" (se_id en) <> None)) /\
       (se_status en = "skipped" <->
        getDoc_error env "inventory" (se_id en) = None /\
        inventory fs !! se_id en <> None) /\
       (se_status en = "success" <->
        getDoc_error env "inventory" (se_id en) = None /\
        inventory fs !! se_id en = None /\
        setDoc_error env "inventory" (se_id en) = None)) /\
    (success r = true <->
     forall p, p ∈ productsData ->
       getDoc_error env "inventory" (Product.id p) = None /\
       (inventory fs !! Product.id p = None ->
        setDoc_error env "inventory" (Product.id p) = None)) /\
    results r' = map (expected_entry env' (store o)) productsData /\
    (success r = true ->
     (forall p, p ∈ productsData ->
        getDoc_error env' "inventory" (Product.id p) = None) ->
     success r' = true /\ skipped (summary r') = 13).
Proof.
  cbn zeta.
  destruct (seedInventory_run env fs)
    as (es & r & Hl & Hres & Hst & Htr & Hes & Hsucc & Hsum).
  destruct (seedInventory_run env' (store (seedInventory env fs)))
    as (es' & r' & Hl' & Hres' & Hst' & Htr' & Hes' & Hsucc' & Hsum').
  cbn zeta in *.
  destruct (seed_loop_spec env productsData [] fs)
    as (es0 & Hl0 & Hids & _ & _ & Hsub & Hwr & Hok & _ & Hsettled & _).
  cbn zeta in *. rewrite app_nil_l in Hl0.
  assert (es0 = es) as -> by congruence.
  rewrite <- Hst in Hsub, Hok, Hsettled. rewrite <- Htr in Hwr.
  assert (es = map (expected_entry env fs) productsData) as Hclosed.
  { pose proof (seed_loop_entries env fs productsData productsData_ids_NoDup
                  [] fs (fun _ _ => eq_refl)) as H.
    rewrite app_nil_l in H. congruence. }
  assert (es' = map (expected_entry env' (store (seedInventory env fs)))
                  productsData) as Hclosed'.
  { pose proof (seed_loop_entries env' (store (seedInventory env fs))
                  productsData productsData_ids_NoDup
                  [] (store (seedInventory env fs)) (fun _ _ => eq_refl)) as H.
    rewrite app_nil_l in H. congruence. }
  assert (success r = true <->
          forall p, p ∈ productsData ->
            getDoc_error env "inventory" (Product.id p) = None /\
            (inventory fs !! Product.id p = None ->
             setDoc_error env "inventory" (Product.id p) = None)) as Hsuccess.
  { rewrite Hsucc, Nat.eqb_eq, count_status_zero, Hclosed. split.
    - intros Hnf p Hin.
      destruct (expected_entry_status env fs p) as (_ & _ & Hf & _).
      cbn zeta in Hf.
      assert (se_status (expected_entry env fs p) <> "failed") as Hne.
      { apply Hnf. apply list_elem_of_fmap. by exists p. }
      rewrite Hf in Hne.
      destruct (getDoc_error env "inventory" (Product.id p)) as [e|];
        [exfalso; apply Hne; by left|].
      split; [reflexivity|]. intros Hnone.
      destruct (setDoc_error env "inventory" (Product.id p)) as [e|];
        [exfalso; apply Hne; right; by split | reflexivity].
    - intros Hall en Hin. apply list_elem_of_fmap in Hin as (p & -> & Hp).
      destruct (expected_entry_status env fs p) as (_ & _ & Hf & _).
      cbn zeta in Hf. rewrite Hf.
      destruct (Hall p Hp) as [Hget Hset].
      intros [Hbad | [Hnone Hbad]]; [contradiction | by apply Hbad, Hset]. }
  exists r, r'. rewrite Hes, Hes', Hsum.  cbn [failed].
  split; [assumption|]. split; [assumption|]. split; [assumption|].
  split.
  { rewrite <- (length_map se_id), Hids, length_map. reflexivity. }
  split.
  { intros p Hin Hget Hset. apply not_eq_None_Some.
    destruct (Hsettled p Hin) as [?|[?|?]]; [assumption | contradiction..]. }
  split; [assumption|]. split; [assumption|].
  split; [rewrite Hsucc; apply Nat.eqb_eq|]. split; [apply count_status_zero|].
  assert (success r = true ->
          forall p, p ∈ productsData ->
            inventory (store (seedInventory env fs)) !! Product.id p <> None)
    as Hpresent.
  { intros Hall p Hin. rewrite Hsucc in Hall. apply Nat.eqb_eq in Hall.
    pose proof (proj1 (count_status_zero _ _) Hall) as Hnf.
    assert (Product.id p ∈ map se_id es) as Hid.
    { rewrite Hids. apply list_elem_of_fmap. by exists p. }
    apply list_elem_of_fmap in Hid as (en & -> & Hen).
    apply Hok; [assumption | by apply Hnf]. }
  split.
  { intros Hall. specialize (Hpresent Hall).
    rewrite Hst', Htr'. split.
    { apply seed_loop_settled. intros p Hin. left. by apply Hpresent. }
    destruct (seed_loop_present env' productsData []
                (store (seedInventory env fs)) Hpresent)
      as (Hnw & es1 & Hl1 & Hns).
    cbn zeta in *. rewrite app_nil_l in Hl1.
    split; [assumption|].
    rewrite Hsum'. cbn [added]. apply count_status_zero.
    assert (es1 = es') as -> by congruence.
    intros en Hin. rewrite Forall_forall in Hns. by apply Hns. }
  split; [intros ->; rewrite Hst'; by apply seed_loop_settled|].
  split; [assumption|].
  split.
  { intros en Hin. rewrite Hclosed in Hin.
    apply list_elem_of_fmap in Hin as (p & -> & Hp).
    destruct (expected_entry_status env fs p) as (Hid & _ & Hf & Hsk & Hsu).
    cbn zeta in *. rewrite Hid. auto. }
  split; [assumption|]. split; [assumption|].
  intros Hall Hread. specialize (Hpresent Hall).
  assert (Forall (fun en => se_status en = "skipped") es') as Hskipped.
  { rewrite Hclosed'. apply Forall_fmap, Forall_forall. intros p Hp. cbn.
    destruct (expected_entry_status env' (store (seedInventory env fs)) p)
      as (_ & _ & _ & Hsk & _).
    cbn zeta in Hsk. apply Hsk. split; [by apply Hread | by apply Hpresent]. }
  rewrite Hsucc', Hsum'. cbn [skipped]. split.
  - apply Nat.eqb_eq, count_status_zero. intros en Hin.
    rewrite Forall_forall in Hskipped. rewrite (Hskipped en Hin). discriminate.
  - rewrite (count_status_all _ _ Hskipped), Hclosed', length_map. reflexivity.
Qed.

(** ** More on error formatting *)

(** A code without a case, or no code: the raw message is kept if there
    is one, else the generic message is used; the code is kept. *)
Theorem handleAuthError_unknown_code (e : AuthError) :
  (forall c, Js.code e = Some c -> c ∉ known_codes) ->
  handleAuthError e =
  {| Js.name := "Error"; Js.code := Js.code e;
     Js.message :=
       Some (Js.or_str (Js.message e) "An error occurred during authentication") |}.
Proof.
  intros Hc. unfold handleAuthError. cbn [Js.name Js.message Js.new_Error].
  by rewrite switch_unknown.
Qed.

Lemma handleAuthError_unknown_code_witness :
  handleAuthError Scenario.quota_error =
  {| Js.name := "Error"; Js.code := Some "resource-exhausted";
     Js.message := Some "Quota exceeded." |}.
Proof.
  apply (handleAuthError_unknown_code Scenario.quota_error).
  intros c [= <-]. unfold known_codes. cbn.
  intros H. repeat (apply elem_of_cons in H as [H|H]; [discriminate H|]).
  by apply elem_of_nil in H.
Defined.

Lemma switch_idem {A : Type} (v : option string) (cases : list (string * A))
    (d : A) :
  Js.switch v cases (Js.switch v cases d) = Js.switch v cases d.
Proof.
  induction cases as [|[c r] rest IH]; cbn; [reflexivity|].
  destruct (Js.code_is v c); [reflexivity | exact IH].
Qed.

(** Formatting an error that is already formatted changes nothing. *)
Theorem handleAuthError_idempotent (e : AuthError) :
  handleAuthError (handleAuthError e) = handleAuthError e.
Proof.
  destruct (handleAuthError_message e) as (msg & Hmsg & Hne).
  unfold handleAuthError in *. cbn [Js.name Js.code Js.message Js.new_Error] in *.
  set (m := Js.switch (Js.code e) handleAuthError_cases
              (Js.or_str (Js.message e) "An error occurred during authentication"))
    in *.
  assert (m = msg) as Hm by congruence.
  assert (Js.or_str (Some m) "An error occurred during authentication" = m) as ->.
  { rewrite Hm. unfold Js.or_str.
    destruct (String.eqb_spec msg ""); [contradiction | reflexivity]. }
  unfold m. by rewrite switch_idem.
Qed.

(** ** What the operations reject with *)

Lemma try_catch_format {A : Type} (body : M A) (fs : Firestore) :
  let o := try_catch body (fun error => throw (handleAuthError error)) fs in
  store o = store (body fs) /\ trace o = trace (body fs) /\
  result o = match result (body fs) with
             | inl raw => inl (handleAuthError raw)
             | inr a => inr a
             end.
Proof.
  cbn zeta. unfold try_catch, throw.
  destruct (result (body fs)) eqn:Hb; cbn; rewrite ?app_nil_r; auto.
Qed.

(** Every operation of the service other than the federated sign-in
    rejects only with errors that [handleAuthError] has formatted: such
    an error is a plain [Error] with a message that is not empty. *)
Theorem rejections_are_formatted (env : Env) (ms : ModuleState) (fs : Firestore)
    (email password uid : string) (fullName username : option string)
    (e : Js.Error) :
  result (signUpWithEmail env email password fullName username fs) = inl e \/
  result (signInWithEmail env email password fs) = inl e \/
  result (signOut env ms fs) = inl e \/
  result (resetPassword env email fs) = inl e \/
  result (resendEmailVerification env fs) = inl e \/
  result (getUserData env uid fs) = inl e ->
  (exists raw, e = handleAuthError raw) /\
  Js.name e = "Error" /\
  exists msg, Js.message e = Some msg /\ msg <> "".
Proof.
  intros H.
  assert (exists raw, e = handleAuthError raw) as (raw & ->).
  { unfold signUpWithEmail, signInWithEmail, signOut, resetPassword,
      resendEmailVerification, getUserData in H.
    repeat match type of H with
           | _ \/ _ => destruct H as [H|H]
           end;
      match type of H with
      | result (try_catch ?b _ ?fs) = _ =>
          destruct (try_catch_format b fs) as (_ & _ & Hr);
          cbn zeta in Hr; rewrite Hr in H;
          destruct (result (b fs)) as [raw|];
          [injection H as <-; by exists raw | discriminate]
      end. }
  split; [by eexists|].
  split; [reflexivity | apply handleAuthError_message].
Qed.

Lemma rejections_are_formatted_witness :
  let e := {| Js.name := "Error"; Js.code := None;
              Js.message := Some "No user is currently signed in" |} in
  (exists raw, e = handleAuthError raw) /\
  Js.name e = "Error" /\
  exists msg, Js.message e = Some msg /\ msg <> "".
Proof.
  apply (rejections_are_formatted (Scenario.env_ok "web") (module_init "web" None)
           Scenario.empty_store "a@b.com" "password123" "uid-1" None None).
  right; right; right; right; left. reflexivity.
Defined.

(** ** Federated sign-in off the web *)

Lemma signInWithGoogle_native_off (env : Env) (ms : ModuleState)
    (fs : Firestore) :
  String.eqb (Platform_OS env) "web" = false ->
  negb (isGoogleSignInAvailable ms) || negb (GoogleSignin ms) = true ->
  signInWithGoogle env ms fs =
  mkOutcome
    (inl (Js.new_Error
            "Google Sign-In requires a custom development build. Please use email/password sign-in or create a custom dev build with EAS Build."))
    fs [].
Proof.
  intros Hos Hms. unfold signInWithGoogle, signInWithGoogle_try, try_catch.
  rewrite Hos, Hms. unfold throw. cbn [result store trace].
  unfold signInWithGoogle_catch, is_status.
  destruct (statusCodes ms); reflexivity.
Qed.

(** Without the native module, or with it marked unavailable, the
    federated sign-in on a device rejects at once: nothing is called. *)
Theorem signInWithGoogle_without_native_module (env : Env) (ms : ModuleState)
    (fs : Firestore) :
  Platform_OS env <> "web" ->
  isGoogleSignInAvailable ms = false \/ GoogleSignin ms = false ->
  signInWithGoogle env ms fs =
  mkOutcome
    (inl (Js.new_Error
            "Google Sign-In requires a custom development build. Please use email/password sign-in or create a custom dev build with EAS Build."))
    fs [].
Proof.
  intros Hos Hms. apply signInWithGoogle_native_off.
  - by apply String.eqb_neq.
  - destruct Hms as [-> | ->]; [reflexivity | apply orb_true_r].
Qed.

Lemma signInWithGoogle_without_native_module_witness :
  signInWithGoogle (Scenario.env_ok "android") (module_init "android" None)
    Scenario.empty_store =
  mkOutcome
    (inl (Js.new_Error
            "Google Sign-In requires a custom development build. Please use email/password sign-in or create a custom dev build with EAS Build."))
    Scenario.empty_store [].
Proof.
  apply (signInWithGoogle_without_native_module (Scenario.env_ok "android")
           (module_init "android" None) Scenario.empty_store).
  - discriminate.
  - left. reflexivity.
Defined.

(** When the native module answers without an id token, neither at the
    top level nor under [data], the sign-in rejects before Firebase is
    asked for anything: no credential is exchanged and no profile is
    read or written. *)
Theorem signInWithGoogle_missing_id_token (env : Env) (ms : ModuleState)
    (fs : Firestore) (userInfo : GoogleUserInfo) :
  Platform_OS env <> "web" ->
  isGoogleSignInAvailable ms = true -> GoogleSignin ms = true ->
  hasPlayServices env = None ->
  google_signIn env = inr userInfo ->
  Js.truthy (idToken userInfo) = false ->
  (forall t, data userInfo = Some t -> Js.truthy t = false) ->
  signInWithGoogle env ms fs =
  mkOutcome
    (inl (Js.new_Error
            "Google sign-in failed: missing id_token. Please check your SHA-1 fingerprint is registered in Firebase Console."))
    fs [GoogleHasPlayServices; GoogleSignOut; GoogleSignIn].
Proof.
  intros Hos Hav Hmod Hplay Hin Htok Hdata.
  unfold signInWithGoogle, signInWithGoogle_try.
  destruct (String.eqb_spec (Platform_OS env) "web") as [?|_]; [contradiction|].
  rewrite Hav, Hmod. cbn [negb orb]. unfold_M. rewrite Hplay, Hin. cbn.
  assert (Js.truthy
            (Js.or_else (idToken userInfo)
               match data userInfo with Some t => t | None => None end) = false)
    as Hnone.
  { unfold Js.or_else. rewrite Htok.
    destruct (data userInfo) as [t|]; [by apply Hdata | reflexivity]. }
  destruct (google_signOut env); cbn; rewrite Hnone; cbn;
    unfold signInWithGoogle_catch, is_status;
    destruct (statusCodes ms); reflexivity.
Qed.

Lemma signInWithGoogle_missing_id_token_witness :
  let env :=
    env_with "android" None None (inr {| idToken := None; data := Some (Some "") |})
      no_error2 no_error2 no_error1 in
  signInWithGoogle env (module_init "android" (Some Scenario.native_codes))
    Scenario.empty_store =
  mkOutcome
    (inl (Js.new_Error
            "Google sign-in failed: missing id_token. Please check your SHA-1 fingerprint is registered in Firebase Console."))
    Scenario.empty_store [GoogleHasPlayServices; GoogleSignOut; GoogleSignIn].
Proof.
  apply (signInWithGoogle_missing_id_token
           (env_with "android" None None
              (inr {| idToken := None; data := Some (Some "") |})
              no_error2 no_error2 no_error1)
           (module_init "android" (Some Scenario.native_codes))
           Scenario.empty_store {| idToken := None; data := Some (Some "") |});
    try reflexivity.
  - discriminate.
  - intros t [= <-]. reflexivity.
Defined.

(** The sign-out that precedes the native sign-in is best effort: what
    [GoogleSignin.signOut()] answers changes nothing in what the
    federated sign-in returns, calls or writes. *)
Theorem signInWithGoogle_ignores_google_signOut (env : Env) (ms : ModuleState)
    (fs : Firestore) (answer : option Js.Error) :
  signInWithGoogle (with_google_signOut answer env) ms fs =
  signInWithGoogle env ms fs.
Proof.
  unfold signInWithGoogle, signInWithGoogle_try, try_catch. cbn.
  destruct (String.eqb (Platform_OS env) "web"); [reflexivity|].
  destruct (negb (isGoogleSignInAvailable ms) || negb (GoogleSignin ms));
    [reflexivity|].
  unfold_M. cbn.
  destruct (hasPlayServices env); [reflexivity|]. cbn.
  destruct answer, (google_signOut env); reflexivity.
Qed.

(** What Firestore holds after a sign-up that resolved. *)
Lemma signUpWithEmail_resolved (env : Env) (fs : Firestore)
    (email password : string) (fullName username : option string) (u : User.t) :
  let s := signUpWithEmail env email password fullName username fs in
  result s = inr u ->
  if Js.truthy username || Js.truthy fullName
  then store s =
         {| users :=
              <[User.uid u :=
                  {| UserData.email := Js.or_str (User.email u) "";
                     UserData.fullName := Js.or_str fullName "";
                     UserData.username := Js.or_str username "";
                     UserData.createdAt := now env;
                     UserData.emailVerified := false |}]> (users fs);
            inventory := inventory fs |}
  else store s = fs.
Proof.
  cbn zeta. intros Hres.
  unfold signUpWithEmail, setDoc_users in *. unfold_M. cbn in *.
  destruct (createUserWithEmailAndPassword env email password) as [e|u0];
    cbn in *; [discriminate|].
  destruct (Js.truthy fullName) eqn:Hfull; cbn in *.
  + destruct (updateProfile env u0 (default "" fullName)); cbn in *;
      [discriminate|].
    destruct (sendEmailVerification env _); cbn in *; [discriminate|].
    rewrite orb_true_r in *. cbn in *.
    destruct (setDoc_error env "users" (User.uid u0)); cbn in *;
      [discriminate|].
    injection Hres as <-. reflexivity.
  + destruct (sendEmailVerification env u0); cbn in *; [discriminate|].
    rewrite orb_false_r in *.
    destruct (Js.truthy username); cbn in *.
    * destruct (setDoc_error env "users" (User.uid u0)); cbn in *;
        [discriminate|].
      injection Hres as <-. reflexivity.
    * reflexivity.
Qed.

(** ** Sign-up: what it leaves behind *)

(** With neither a full name nor a user name (the way the sign-up screen
    calls it), [signUpWithEmail] does not touch Firestore and sets no
    display name: it creates the account and asks for the verification
    mail, nothing more. *)
Theorem signUpWithEmail_without_names (env : Env) (email password : string)
    (fullName username : option string) (fs : Firestore) :
  Js.truthy fullName = false -> Js.truthy username = false ->
  let o := signUpWithEmail env email password fullName username fs in
  store o = fs /\
  match createUserWithEmailAndPassword env email password with
  | inl e =>
      result o = inl (handleAuthError e) /\ trace o = [CreateUser email password]
  | inr u =>
      trace o = [CreateUser email password; SendEmailVerification (User.uid u)] /\
      result o = match sendEmailVerification env u with
                 | Some e => inl (handleAuthError e)
                 | None => inr u
                 end
  end.
Proof.
  intros Hfull Huser. cbn zeta. unfold signUpWithEmail. unfold_M.
  rewrite Hfull, Huser. cbn.
  destruct (createUserWithEmailAndPassword env email password) as [e|u]; cbn;
    [auto|].
  destruct (sendEmailVerification env u); cbn; auto.
Qed.

Lemma signUpWithEmail_without_names_witness :
  let env := Scenario.env_ok "ios" in
  let o := signUpWithEmail env "a@b.com" "password123" None (Some "")
             Scenario.store_with_profile in
  store o = Scenario.store_with_profile /\
  trace o = [CreateUser "a@b.com" "password123"; SendEmailVerification "uid-1"] /\
  result o = inr (Scenario.fresh_user "a@b.com").
Proof.
  apply (signUpWithEmail_without_names (Scenario.env_ok "ios") "a@b.com"
           "password123" None (Some "") Scenario.store_with_profile);
    reflexivity.
Defined.

(** A sign-up or a federated sign-in that rejects has written nothing:
    the profile write is the last thing either does, so Firestore is as it
    was, also when the account was created on the way. *)
Theorem rejected_sign_in_writes_nothing (env : Env) (ms : ModuleState)
    (fs : Firestore) (email password : string) (fullName username : option string)
    (e : Js.Error) :
  (result (signUpWithEmail env email password fullName username fs) = inl e ->
   store (signUpWithEmail env email password fullName username fs) = fs) /\
  (result (signInWithGoogle env ms fs) = inl e ->
   store (signInWithGoogle env ms fs) = fs).
Proof.
  split.
  - unfold signUpWithEmail, setDoc_users. unfold_M. cbn.
    destruct (createUserWithEmailAndPassword env email password) as [e0|u]; cbn;
      [reflexivity|].
    destruct (Js.truthy fullName); cbn.
    + destruct (updateProfile env u (default "" fullName)); cbn; [reflexivity|].
      destruct (sendEmailVerification env _); cbn; [reflexivity|].
      rewrite orb_true_r. cbn.
      destruct (setDoc_error env "users" (User.uid u)); cbn;
        [reflexivity | discriminate].
    + destruct (sendEmailVerification env u); cbn; [reflexivity|].
      rewrite orb_false_r. destruct (Js.truthy username); cbn; [|reflexivity].
      destruct (setDoc_error env "users" (User.uid u)); cbn;
        [reflexivity | discriminate].
  - intros H.
    destruct (signInWithGoogle_shape env ms fs)
      as [(Hst & _ & _) | (pre & user & _ & _ & _ & Hst & Hr)]; [assumption|].
    cbn zeta in *. rewrite Hst. rewrite H in Hr.
    rewrite storeGoogleUserIfNew_cases in Hr |- *. cbn zeta in *.
    destruct (getDoc_error env "users" (User.uid user)); [reflexivity|].
    destruct (users fs !! User.uid user); [reflexivity|].
    destruct (setDoc_error env "users" (User.uid user)); [reflexivity|].
    discriminate.
Qed.

(** ** Sign-out: the primary step *)

(** When Firebase's own sign-out rejects, the Google sign-out is not
    attempted and the formatted error is what the caller gets. *)
Theorem signOut_firebase_failure (env : Env) (ms : ModuleState) (fs : Firestore)
    (e : Js.Error) :
  firebaseSignOut env = Some e ->
  signOut env ms fs = mkOutcome (inl (handleAuthError e)) fs [FirebaseSignOut].
Proof. intros H. unfold signOut. unfold_M. rewrite H. reflexivity. Qed.

Lemma signOut_firebase_failure_witness :
  let offline :=
    {| Js.name := "FirebaseError"; Js.code := Some "auth/network-request-failed";
       Js.message := Some "Firebase: Error (auth/network-request-failed)." |} in
  let env :=
    env_with "android" (Some offline) None (google_signIn (Scenario.env_ok "android"))
      no_error2 no_error2 no_error1 in
  signOut env (module_init "android" (Some Scenario.native_codes))
    Scenario.empty_store =
  mkOutcome
    (inl {| Js.name := "Error"; Js.code := Some "auth/network-request-failed";
            Js.message :=
              Some "Network error. Please check your internet connection." |})
    Scenario.empty_store [FirebaseSignOut].
Proof.
  apply (signOut_firebase_failure
           (env_with "android"
              (Some {| Js.name := "FirebaseError";
                       Js.code := Some "auth/network-request-failed";
                       Js.message :=
                         Some "Firebase: Error (auth/network-request-failed)." |})
              None (google_signIn (Scenario.env_ok "android"))
              no_error2 no_error2 no_error1)
           (module_init "android" (Some Scenario.native_codes))
           Scenario.empty_store
           {| Js.name := "FirebaseError";
              Js.code := Some "auth/network-request-failed";
              Js.message :=
                Some "Firebase: Error (auth/network-request-failed)." |}).
  reflexivity.
Defined.

(** ** Reading a profile back *)

(** The profile that a sign-up wrote is the one [getUserData] returns for
    the new user: it carries the names that were given and is not marked
    verified. *)
Theorem getUserData_after_signUp (env env' : Env) (fs : Firestore)
    (email password : string) (fullName username : option string) (u : User.t) :
  let o := signUpWithEmail env email password fullName username fs in
  result o = inr u ->
  Js.truthy username || Js.truthy fullName = true ->
  getDoc_error env' "users" (User.uid u) = None ->
  result (getUserData env' (User.uid u) (store o)) =
  inr (Some {| UserData.email := Js.or_str (User.email u) "";
               UserData.fullName := Js.or_str fullName "";
               UserData.username := Js.or_str username "";
               UserData.createdAt := now env;
               UserData.emailVerified := false |}).
Proof.
  cbn zeta. intros Hres Hnames Hget.
  pose proof (signUpWithEmail_resolved env fs email password fullName username
                u Hres) as Hst.
  rewrite Hnames in Hst.
  unfold getUserData.
  destruct (try_catch_format
              (getDoc_users env' (User.uid u) ≫= λ userDoc,
                 match userDoc with Some d => mret (Some d) | None => mret None end)
              (store (signUpWithEmail env email password fullName username fs)))
    as (_ & _ & ->).
  unfold getDoc_users. unfold_M. rewrite Hget. cbn. rewrite Hst. cbn.
  by rewrite lookup_insert_eq.
Qed.

Lemma getUserData_after_signUp_witness :
  let env := Scenario.env_ok "web" in
  let o := signUpWithEmail env "a@b.com" "password123" None (Some "ann")
             Scenario.store_with_profile in
  result (getUserData env "uid-1" (store o)) =
  inr (Some {| UserData.email := "a@b.com"; UserData.fullName := "";
               UserData.username := "ann"; UserData.createdAt := now env;
               UserData.emailVerified := false |}).
Proof.
  apply (getUserData_after_signUp (Scenario.env_ok "web") (Scenario.env_ok "web")
           Scenario.store_with_profile "a@b.com" "password123" None (Some "ann")
           (Scenario.fresh_user "a@b.com"));
    reflexivity.
Defined.

(** After a federated sign-in that resolved, [getUserData] finds a
    profile for the user, never [null]; if the user had none before, it
    is the one the sign-in wrote, marked verified. *)
Theorem getUserData_after_signInWithGoogle (env env' : Env) (ms : ModuleState)
    (fs : Firestore) (u : User.t) :
  let o := signInWithGoogle env ms fs in
  result o = inr u ->
  getDoc_error env' "users" (User.uid u) = None ->
  exists d,
    result (getUserData env' (User.uid u) (store o)) = inr (Some d) /\
    match users fs !! User.uid u with
    | Some old => d = old
    | None => d = googleUserData env u /\ UserData.emailVerified d = true
    end.
Proof.
  cbn zeta. intros Hres Hget.
  apply signInWithGoogle_resolved in Hres as (pre & _ & Hcase).
  unfold getUserData.
  destruct (try_catch_format
              (getDoc_users env' (User.uid u) ≫= λ userDoc,
                 match userDoc with Some d => mret (Some d) | None => mret None end)
              (store (signInWithGoogle env ms fs)))
    as (_ & _ & ->).
  unfold getDoc_users. unfold_M. rewrite Hget. cbn.
  destruct Hcase as [([old Hold] & _ & ->) | (Hnone & _ & ->)].
  - rewrite Hold. cbn. by exists old.
  - rewrite Hnone. cbn. rewrite lookup_insert_eq. cbn. eauto.
Qed.

Lemma getUserData_after_signInWithGoogle_witness :
  let env := Scenario.env_ok "web" in
  let o := signInWithGoogle env (module_init "web" None) Scenario.empty_store in
  exists d,
    result (getUserData env "uid-g" (store o)) = inr (Some d) /\
    (d = googleUserData env Scenario.google_user /\
     UserData.emailVerified d = true).
Proof.
  apply (getUserData_after_signInWithGoogle (Scenario.env_ok "web")
           (Scenario.env_ok "web") (module_init "web" None) Scenario.empty_store
           Scenario.google_user);
    reflexivity.
Defined.

(** ** Operations that only read *)

(** Signing in with a password, signing out, the two mails, and every
    read of a profile or of the inventory leave Firestore as it is,
    whether they resolve or reject. *)
Theorem reading_operations_write_nothing (env : Env) (ms : ModuleState)
    (fs : Firestore) (email password id : string) :
  store (signInWithEmail env email password fs) = fs /\
  store (signOut env ms fs) = fs /\
  store (resetPassword env email fs) = fs /\
  store (resendEmailVerification env fs) = fs /\
  store (getUserData env id fs) = fs /\
  store (checkInventoryCollection env fs) = fs /\
  store (fetchProducts env fs) = fs /\
  store (fetchProductById env id fs) = fs.
Proof.
  unfold signInWithEmail, signOut, resetPassword, resendEmailVerification,
    getUserData, checkInventoryCollection, fetchProducts, fetchProductById,
    getDoc_users, getDoc_inventory, getDocs_inventory.
  unfold_M. cbn.
  repeat match goal with |- _ /\ _ => split end.
  - by destruct (signInWithEmailAndPassword env email password).
  - destruct (firebaseSignOut env); cbn; [reflexivity|].
    destruct (negb (String.eqb (Platform_OS env) "web")
              && isGoogleSignInAvailable ms && GoogleSignin ms); cbn;
      [|reflexivity].
    by destruct (google_signOut env).
  - by destruct (sendPasswordResetEmail env email).
  - destruct (currentUser env) as [u|]; cbn; [|reflexivity].
    by destruct (sendEmailVerification env u).
  - destruct (getDoc_error env "users" id); cbn; [reflexivity|].
    by destruct (users fs !! id).
  - destruct (getDocs_error env "inventory") as [e|]; cbn; [|reflexivity].
    by destruct (Js.code_is (Js.code e) "permission-denied").
  - destruct (getDocs_error env "inventory") as [e|]; cbn; [|reflexivity].
    by destruct (Js.code_is (Js.code e) "unavailable"
                 || Js.opt_includes "offline" (Js.message e)).
  - destruct (getDoc_error env "inventory" id); cbn; [reflexivity|].
    by destruct (inventory fs !! id).
Qed.

(** ** Configuring the native module *)

(** After the module has been loaded and configured,
    [isGoogleSignInAvailable] is set only off the web, with the native
    module and its status codes present, a client id that is set and is
    not a placeholder, and a [configure] that did not throw. *)
Theorem configureGoogleSignIn_available (os : string)
    (require : option StatusCodes) (webClientId : option string)
    (configure : option Js.Error) :
  let ms := configureGoogleSignIn os webClientId configure (module_init os require) in
  GoogleSignin ms = GoogleSignin (module_init os require) /\
  statusCodes ms = statusCodes (module_init os require) /\
  (isGoogleSignInAvailable ms = true <->
   os <> "web" /\ is_Some require /\
   Js.truthy webClientId = true /\
   Js.opt_includes "YOUR_" webClientId = false /\
   Js.opt_includes "your-" webClientId = false /\
   configure = None) /\
  (isGoogleSignInAvailable ms = true ->
   GoogleSignin ms = true /\ is_Some (statusCodes ms)).
Proof.
  cbn zeta. unfold configureGoogleSignIn, module_init.
  destruct (String.eqb_spec os "web") as [->|Hos]; cbn.
  { repeat split; try discriminate; intros; tauto. }
  destruct require as [codes|]; cbn.
  2: { repeat split; try discriminate.
       intros (_ & [? [=]] & _). }
  destruct (Js.truthy webClientId); cbn.
  2: { repeat split; try discriminate. intros (_ & _ & [=] & _). }
  destruct (Js.opt_includes "YOUR_" webClientId); cbn.
  { repeat split; try discriminate. intros (_ & _ & _ & [=] & _). }
  destruct (Js.opt_includes "your-" webClientId); cbn.
  { repeat split; try discriminate. intros (_ & _ & _ & _ & [=] & _). }
  destruct configure as [e|]; cbn.
  { repeat split; try discriminate. intros (_ & _ & _ & _ & _ & [=]). }
  repeat split; eauto.
Qed.

(** With the client id missing or left at a placeholder, configuring
    switches the native path off: on a device the federated sign-in then
    rejects without calling anything, and sign-out stops calling the
    Google module. *)
Theorem configureGoogleSignIn_unconfigured (env : Env) (ms : ModuleState)
    (fs : Firestore) (webClientId : option string) (configure : option Js.Error) :
  Platform_OS env <> "web" ->
  Js.truthy webClientId = false \/
  Js.opt_includes "YOUR_" webClientId = true \/
  Js.opt_includes "your-" webClientId = true ->
  let ms' := configureGoogleSignIn (Platform_OS env) webClientId configure ms in
  isGoogleSignInAvailable ms' && GoogleSignin ms' = false /\
  signInWithGoogle env ms' fs =
    mkOutcome
      (inl (Js.new_Error
              "Google Sign-In requires a custom development build. Please use email/password sign-in or create a custom dev build with EAS Build."))
      fs [] /\
  GoogleSignOut ∉ trace (signOut env ms' fs).
Proof.
  intros Hos Hid. cbn zeta. apply String.eqb_neq in Hos.
  assert (negb (Js.truthy webClientId) || Js.opt_includes "YOUR_" webClientId
          || Js.opt_includes "your-" webClientId = true) as Hbad.
  { destruct Hid as [-> | [-> | ->]]; cbn; rewrite ?orb_true_r; reflexivity. }
  set (ms' := configureGoogleSignIn (Platform_OS env) webClientId configure ms).
  assert (isGoogleSignInAvailable ms' && GoogleSignin ms' = false) as Hoff.
  { unfold ms', configureGoogleSignIn. rewrite Hos, Hbad. cbn.
    destruct (isGoogleSignInAvailable ms) eqn:Hav; cbn; [|by rewrite Hav].
    destruct (GoogleSignin ms) eqn:Hg; cbn; [reflexivity|].
    by rewrite Hav, Hg. }
  split; [assumption|]. split.
  - apply signInWithGoogle_native_off; [assumption|].
    by destruct (isGoogleSignInAvailable ms'), (GoogleSignin ms').
  - unfold signOut. unfold_M. rewrite <- andb_assoc, Hoff, andb_false_r. cbn.
    destruct (firebaseSignOut env); cbn; not_in_trace.
Qed.

Lemma configureGoogleSignIn_unconfigured_witness :
  let env := Scenario.env_ok "android" in
  let ms' :=
    configureGoogleSignIn "android" (Some "YOUR_WEB_CLIENT_ID") None
      (module_init "android" (Some Scenario.native_codes)) in
  isGoogleSignInAvailable ms' && GoogleSignin ms' = false /\
  signInWithGoogle env ms' Scenario.empty_store =
    mkOutcome
      (inl (Js.new_Error
              "Google Sign-In requires a custom development build. Please use email/password sign-in or create a custom dev build with EAS Build."))
      Scenario.empty_store [] /\
  GoogleSignOut ∉ trace (signOut env ms' Scenario.empty_store).
Proof.
  apply (configureGoogleSignIn_unconfigured (Scenario.env_ok "android")
           (module_init "android" (Some Scenario.native_codes))
           Scenario.empty_store (Some "YOUR_WEB_CLIENT_ID") None).
  - discriminate.
  - right. left. reflexivity.
Defined.

(** ** The session before and after the first event *)

(** [loading] and [initializing] are true exactly until the observer has
    been called once, and the state after any events is the state after
    the last of them alone. *)
Theorem AuthProvider_loading_until_first_event (events : list (option User.t))
    (ev : option User.t) :
  loading (AuthProvider_run events) = bool_decide (events = []) /\
  initializing (AuthProvider_run events) = bool_decide (events = []) /\
  AuthProvider_run (events ++ [ev]) = AuthProvider_run [ev].
Proof.
  assert (AuthProvider_run (events ++ [ev]) = AuthProvider_run [ev]) as Hlast.
  { unfold AuthProvider_run. rewrite fold_left_app. reflexivity. }
  split; [|split; [|exact Hlast]].
  - destruct events as [|e0 events] using rev_ind; [reflexivity|].
    unfold AuthProvider_run. rewrite fold_left_app. cbn.
    symmetry. apply bool_decide_eq_false. by destruct events.
  - destruct events as [|e0 events] using rev_ind; [reflexivity|].
    unfold AuthProvider_run. rewrite fold_left_app. cbn.
    symmetry. apply bool_decide_eq_false. by destruct events.
Qed.

(** [isEmailVerified] is the flag of the signed-in user, and false without
    one: a verified session is an authenticated one. *)
Theorem isEmailVerified_of_user (st : AuthState) :
  let v := AuthProvider_value st in
  (ctx_isEmailVerified v = true <->
   exists u, user st = Some u /\ User.emailVerified u = true) /\
  (ctx_isEmailVerified v = true -> ctx_isAuthenticated v = true) /\
  (user st = None -> ctx_isAuthenticated v = false /\ ctx_isEmailVerified v = false).
Proof.
  cbn. destruct (user st) as [u|]; cbn.
  - rewrite orb_false_r. repeat split.
    + intros H. by exists u.
    + by intros (u' & [= <-] & H).
    + discriminate.
    + discriminate.
  - repeat split; try discriminate. by intros (u & [=] & _).
Qed.

(** ** Seeding: the report and the calls *)

Lemma count_status_app (s : string) (l1 l2 : list SeedEntry) :
  count_status s (l1 ++ l2) = count_status s l1 + count_status s l2.
Proof. unfold count_status. by rewrite filter_app, length_app. Qed.

Lemma count_status_total (es : list SeedEntry) :
  Forall (fun en => se_status en = "success" \/ se_status en = "skipped" \/
                    se_status en = "failed") es ->
  count_status "success" es + count_status "skipped" es +
  count_status "failed" es = length es.
Proof.
  unfold count_status. induction 1 as [|en es Hen _ IH]; [reflexivity|].
  rewrite !filter_cons. cbn [length]. rewrite <- IH.
  destruct Hen as [-> | [-> | ->]];
    repeat match goal with
           | |- context [decide (?a = ?b)] =>
               destruct (decide (a = b)); try discriminate; try congruence
           end;
    cbn [length]; lia.
Qed.

(** The report adds up: thirteen entries in all, each counted once as
    added, skipped or failed. *)
Theorem seedInventory_summary_adds_up (env : Env) (fs : Firestore) :
  exists r,
    result (seedInventory env fs) = inr r /\
    total (summary r) = 13 /\
    added (summary r) + skipped (summary r) + failed (summary r) =
    total (summary r) /\
    added (summary r) = count_status "success" (results r) /\
    skipped (summary r) = count_status "skipped" (results r) /\
    failed (summary r) = count_status "failed" (results r).
Proof.
  destruct (seedInventory_run env fs)
    as (es & r & Hl & Hres & _ & _ & Hes & _ & Hsum).
  destruct (seed_loop_spec env productsData [] fs)
    as (es0 & Hl0 & Hids & Hstat & _).
  cbn zeta in *. rewrite app_nil_l in Hl0.
  assert (es0 = es) as -> by congruence.
  exists r. rewrite Hsum, Hes. cbn [total added skipped failed].
  split; [assumption|].
  assert (length es = 13) as Hlen.
  { rewrite <- (length_map se_id), Hids, length_map. reflexivity. }
  split; [assumption|]. split; [|auto].
  by apply count_status_total.
Qed.

Lemma seed_loop_calls (env : Env) (ps : list Product.t) :
  forall (rs : list SeedEntry) (fs : Firestore),
  let o := seed_loop env ps rs fs in
  List.filter is_inventory_read (trace o) =
    map (fun p => GetInventoryDoc (Product.id p)) ps /\
  Forall (fun c => is_inventory_call c = true) (trace o).
Proof.
  induction ps as [|p ps IH]; intros rs fs; cbn zeta; [by split|].
  destruct (seed_product_spec env p rs fs) as (en & Hres & _).
  cbn zeta in *.
  rewrite (seed_loop_cons _ _ _ _ _ _ Hres). cbn zeta. cbn [trace].
  destruct (IH (rs ++ [en])%list (store (seed_product env p rs fs)))
    as [Hreads Hcalls].
  cbn zeta in *.
  rewrite List.filter_app, Hreads, Forall_app.
  split; [|split; [|exact Hcalls]];
    rewrite seed_product_cases; cbn zeta;
    (destruct (getDoc_error env "inventory" (Product.id p));
     [|destruct (inventory fs !! Product.id p);
       [|destruct (setDoc_error env "inventory" (Product.id p))]]);
    cbn; first [reflexivity | repeat constructor].
Qed.

(** [seedInventory] talks to the inventory collection only: it reads each
    of the thirteen documents once, in the order of the seed data, makes
    no other kind of call than reads and writes of inventory documents,
    and leaves the profiles and every inventory document with another id
    alone. *)
Theorem seedInventory_touches_seed_documents_only (env : Env) (fs : Firestore) :
  let o := seedInventory env fs in
  List.filter is_inventory_read (trace o) =
    map (fun p => GetInventoryDoc (Product.id p)) productsData /\
  Forall (fun c => is_inventory_call c = true) (trace o) /\
  users (store o) = users fs /\
  (forall id, id ∉ map Product.id productsData ->
     inventory (store o) !! id = inventory fs !! id).
Proof.
  cbn zeta.
  destruct (seedInventory_run env fs) as (es & r & _ & _ & Hst & Htr & _).
  destruct (seed_loop_calls env productsData [] fs) as [Hreads Hcalls].
  destruct (seed_loop_spec env productsData [] fs)
    as (_ & _ & _ & _ & Husers & Hsub & _ & _ & _ & _ & Hnew).
  cbn zeta in *. rewrite Hst, Htr.
  split; [assumption|]. split; [assumption|]. split; [assumption|].
  intros id Hid.
  destruct (inventory (store (seed_loop env productsData [] fs)) !! id)
    as [d|] eqn:Hd.
  - apply Hnew in Hd as [Hd | [Hin Hd]]; [by rewrite Hd|].
    exfalso. apply Hid. apply list_elem_of_fmap. by exists d.
  - symmetry. by eapply lookup_weaken_None.
Qed.

(** ** Seeding when nothing fails *)

Lemma seed_loop_store (env : Env) (ps : list Product.t) :
  forall (rs : list SeedEntry) (fs : Firestore),
  (forall p, p ∈ ps ->
     getDoc_error env "inventory" (Product.id p) = None /\
     setDoc_error env "inventory" (Product.id p) = None) ->
  let o := seed_loop env ps rs fs in
  inventory (store o) = inventory fs ∪ seed_documents ps /\
  exists es, result o = inr (rs ++ es)%list /\
             Forall (fun en => se_status en <> "failed") es.
Proof.
  induction ps as [|p ps IH]; intros rs fs Hok; cbn zeta.
  - split; [unfold seed_documents; cbn; by rewrite (right_id ∅ (∪))|].
    exists []. cbn. by rewrite app_nil_r.
  - destruct (Hok p (list_elem_of_here _ _)) as [Hget Hset].
    assert (forall q, q ∈ ps ->
              getDoc_error env "inventory" (Product.id q) = None /\
              setDoc_error env "inventory" (Product.id q) = None) as Hok'.
    { intros q Hq. by apply Hok, list_elem_of_further. }
    pose proof (seed_product_cases env p rs fs) as Hstep. cbn zeta in Hstep.
    rewrite Hget, Hset in Hstep.
    unfold seed_documents. cbn [map list_to_map foldr].
    fold (seed_documents ps). cbn [fst snd].
    destruct (inventory fs !! Product.id p) as [d0|] eqn:Hdoc.
    + assert (result (seed_product env p rs fs) =
              inr (rs ++ [seed_entry p "exists" "skipped" None])%list) as Hres
        by by rewrite Hstep.
      rewrite (seed_loop_cons _ _ _ _ _ _ Hres). cbn zeta. cbn [store result].
      rewrite Hstep. cbn [store].
      destruct (IH (rs ++ [seed_entry p "exists" "skipped" None])%list fs Hok')
        as (Hinv & es & Hes & Hnf).
      cbn zeta in *. rewrite Hinv. split.
      * apply map_eq. intros i. rewrite !lookup_union.
        destruct (decide (i = Product.id p)) as [->|Hne].
        -- rewrite Hdoc, lookup_insert_eq.
           by destruct (seed_documents ps !! Product.id p).
        -- by rewrite lookup_insert_ne.
      * exists (seed_entry p "exists" "skipped" None :: es).
        split; [by rewrite Hes, <- app_assoc|].
        constructor; [discriminate | assumption].
    + assert (result (seed_product env p rs fs) =
              inr (rs ++ [seed_entry p "added" "success" None])%list) as Hres
        by by rewrite Hstep.
      rewrite (seed_loop_cons _ _ _ _ _ _ Hres). cbn zeta. cbn [store result].
      rewrite Hstep. cbn [store].
      destruct (IH (rs ++ [seed_entry p "added" "success" None])%list
                  {| users := users fs;
                     inventory := <[Product.id p:=p]> (inventory fs) |} Hok')
        as (Hinv & es & Hes & Hnf).
      cbn zeta in *. rewrite Hinv. cbn [inventory]. split.
      * by rewrite <- insert_union_l, <- insert_union_r.
      * exists (seed_entry p "added" "success" None :: es).
        split; [by rewrite Hes, <- app_assoc|].
        constructor; [discriminate | assumption].
Qed.

(** When no read and no write of an inventory document is refused, the
    run succeeds and the inventory afterwards is the inventory before,
    together with the seed data for the ids that had no document. *)
Theorem seedInventory_without_failures (env : Env) (fs : Firestore) :
  (forall id, getDoc_error env "inventory" id = None /\
              setDoc_error env "inventory" id = None) ->
  let o := seedInventory env fs in
  inventory (store o) = inventory fs ∪ seed_documents productsData /\
  (exists r, result o = inr r /\ success r = true /\ failed (summary r) = 0) /\
  (forall p, p ∈ productsData ->
     inventory (store o) !! Product.id p =
     Some (default p (inventory fs !! Product.id p))).
Proof.
  intros Hok. cbn zeta.
  destruct (seedInventory_run env fs)
    as (es & r & Hl & Hres & Hst & _ & Hes & Hsucc & Hsum).
  destruct (seed_loop_store env productsData [] fs) as (Hinv & es1 & Hl1 & Hnf).
  { intros p _. apply Hok. }
  cbn zeta in *. rewrite app_nil_l in Hl1.
  assert (es1 = es) as -> by congruence.
  assert (count_status "failed" es = 0) as Hzero.
  { apply count_status_zero. intros en Hin. rewrite Forall_forall in Hnf.
    by apply Hnf. }
  rewrite Hst, Hinv. split; [reflexivity|]. split.
  { exists r. rewrite Hsucc, Hsum. cbn [failed]. rewrite Hzero. auto. }
  intros p Hin. rewrite lookup_union.
  destruct (inventory fs !! Product.id p) as [d0|] eqn:Hdoc.
  { by destruct (seed_documents productsData !! Product.id p). }
  assert (seed_documents productsData !! Product.id p = Some p) as ->;
    [|reflexivity].
  unfold seed_documents. apply elem_of_list_to_map_1.
  - rewrite <- list_fmap_compose. by apply (bool_decide_unpack _).
  - apply list_elem_of_fmap. by exists p.
Qed.

Lemma seedInventory_without_failures_witness :
  let o := seedInventory (Scenario.env_ok "web") Scenario.empty_store in
  inventory (store o) =
    inventory Scenario.empty_store ∪ seed_documents productsData /\
  (exists r, result o = inr r /\ success r = true /\ failed (summary r) = 0) /\
  (forall p, p ∈ productsData ->
     inventory (store o) !! Product.id p =
     Some (default p (inventory Scenario.empty_store !! Product.id p))).
Proof.
  apply (seedInventory_without_failures (Scenario.env_ok "web")
           Scenario.empty_store).
  intros id. split; reflexivity.
Defined.

(** ** Reading the inventory *)

Lemma doc_with_id_data (id : string) (d : Product.t) : doc_with_id (id, d) = d.
Proof. by destruct d. Qed.

Lemma map_doc_with_id (docs : list (string * Product.t)) :
  map doc_with_id docs = map snd docs.
Proof.
  induction docs as [|[id d] docs IH]; [reflexivity|].
  cbn [map]. by rewrite IH, doc_with_id_data.
Qed.

(** [checkInventoryCollection] never rejects.  When the listing works it
    counts the documents of the collection and returns them; when the
    listing is refused it answers with no product and a count of zero,
    which is also its answer for an empty collection, and with an error
    text. *)
Theorem checkInventoryCollection_never_rejects (env : Env) (fs : Firestore) :
  let o := checkInventoryCollection env fs in
  exists c,
    result o = inr c /\ trace o = [GetDocs "inventory"] /\
    length (ic_products c) = ic_count c /\
    match getDocs_error env "inventory" with
    | None =>
        ic_exists c = true /\ ic_error c = None /\
        ic_count c = size (inventory fs) /\
        (forall d, d ∈ ic_products c <-> exists id, inventory fs !! id = Some d)
    | Some e =>
        ic_exists c = false /\ ic_count c = 0 /\
        ic_error c =
          Some (if Js.code_is (Js.code e) "permission-denied"
                then Some "Permission denied. Please update Firestore security rules."
                else Js.message e)
    end.
Proof.
  cbn zeta. unfold checkInventoryCollection, getDocs_inventory. unfold_M.
  destruct (getDocs_error env "inventory") as [e|]; cbn.
  - destruct (Js.code_is (Js.code e) "permission-denied"); cbn;
      eexists; repeat split.
  - eexists. split; [reflexivity|]. split; [reflexivity|]. cbn.
    split; [by rewrite length_map|].
    split; [reflexivity|]. split; [reflexivity|].
    split; [apply length_map_to_list|].
    intros d. rewrite map_doc_with_id. split.
    + intros Hin. apply list_elem_of_fmap in Hin as ([id d'] & -> & Hin).
      exists id. by apply elem_of_map_to_list.
    + intros [id Hid]. apply list_elem_of_fmap. exists (id, d).
      split; [reflexivity | by apply elem_of_map_to_list].
Qed.

Lemma fetchProducts_listed (env : Env) (fs : Firestore) :
  getDocs_error env "inventory" = None ->
  result (fetchProducts env fs) = inr (map snd (map_to_list (inventory fs))).
Proof.
  intros H. unfold fetchProducts, getDocs_inventory. unfold_M. rewrite H. cbn.
  by rewrite map_doc_with_id.
Qed.

Lemma fetchProductById_read (env : Env) (id : string) (fs : Firestore) :
  getDoc_error env "inventory" id = None ->
  result (fetchProductById env id fs) = inr (inventory fs !! id).
Proof.
  intros H. unfold fetchProductById, getDoc_inventory. unfold_M. rewrite H. cbn.
  destruct (inventory fs !! id) as [d|]; cbn; [|reflexivity]. by destruct d.
Qed.

Lemma seed_documents_NoDup :
  NoDup (map (fun p => (Product.id p, p)) productsData).*1.
Proof. rewrite <- list_fmap_compose. by apply (bool_decide_unpack _). Qed.

(** Seeding an empty inventory and reading it back: when nothing is
    refused, [fetchProducts] returns the thirteen products of the seed
    data, each once, and [fetchProductById] finds each of them under its
    id. *)
Theorem fetch_after_seedInventory (env env' : Env) (fs : Firestore) :
  inventory fs = ∅ ->
  (forall id, getDoc_error env "inventory" id = None /\
              setDoc_error env "inventory" id = None) ->
  getDocs_error env' "inventory" = None ->
  (forall id, getDoc_error env' "inventory" id = None) ->
  let o := seedInventory env fs in
  (exists products,
     result (fetchProducts env' (store o)) = inr products /\
     products ≡ₚ productsData) /\
  (forall p, p ∈ productsData ->
     result (fetchProductById env' (Product.id p) (store o)) = inr (Some p)) /\
  (forall id, id ∉ map Product.id productsData ->
     result (fetchProductById env' id (store o)) = inr None).
Proof.
  intros Hempty Hok Hlist Hread. cbn zeta.
  destruct (seed_loop_store env productsData [] fs) as (Hinv & _).
  { intros p _. apply Hok. }
  destruct (seedInventory_run env fs) as (_ & _ & _ & _ & Hst & _).
  cbn zeta in *. rewrite <- Hst in Hinv. rewrite Hempty in Hinv.
  rewrite (left_id ∅ (∪)) in Hinv. clear Hst.
  generalize dependent (store (seedInventory env fs)). intros fs' Hinv.
  pose proof seed_documents_NoDup as Hnodup.
  split; [|split].
  - rewrite (fetchProducts_listed _ _ Hlist). eexists. split; [reflexivity|].
    rewrite Hinv. unfold seed_documents.
    rewrite (Permutation_map _ (map_to_list_to_map _ Hnodup)).
    rewrite map_map. cbn [snd]. by rewrite map_id.
  - intros p Hin. rewrite (fetchProductById_read _ _ _ (Hread _)).
    rewrite Hinv. unfold seed_documents. f_equal.
    apply (elem_of_list_to_map_1 _ (Product.id p) p Hnodup).
    apply list_elem_of_fmap. by exists p.
  - intros id Hid. rewrite (fetchProductById_read _ _ _ (Hread _)).
    rewrite Hinv. unfold seed_documents. f_equal.
    apply not_elem_of_list_to_map_1.
    by rewrite <- list_fmap_compose.
Qed.

Lemma fetch_after_seedInventory_witness :
  let env := Scenario.env_ok "web" in
  let o := seedInventory env Scenario.store_with_profile in
  (exists products,
     result (fetchProducts env (store o)) = inr products /\
     products ≡ₚ productsData) /\
  (forall p, p ∈ productsData ->
     result (fetchProductById env (Product.id p) (store o)) = inr (Some p)) /\
  (forall id, id ∉ map Product.id productsData ->
     result (fetchProductById env id (store o)) = inr None).
Proof.
  apply (fetch_after_seedInventory (Scenario.env_ok "web") (Scenario.env_ok "web")
           Scenario.store_with_profile).
  - reflexivity.
  - intros id. split; reflexivity.
  - reflexivity.
  - intros id. reflexivity.
Defined.

(** ** The home screen's first effect *)

(** [initializeInventory] never rejects.  It seeds exactly when its check
    counts no product, that is when the inventory is empty or could not
    be listed; otherwise the listing is its only call and nothing is
    written. *)
Theorem initializeInventory_seeds_when_empty (env : Env) (fs : Firestore) :
  let o := initializeInventory env fs in
  result o = inr tt /\
  if bool_decide (getDocs_error env "inventory" = None /\ inventory fs <> ∅)
  then trace o = [GetDocs "inventory"] /\ store o = fs
  else trace o = GetDocs "inventory" :: trace (seedInventory env fs) /\
       store o = store (seedInventory env fs).
Proof.
  cbn zeta.
  destruct (seedInventory_run env fs) as (es & r & _ & Hres & _).
  cbn zeta in Hres. unfold initializeInventory.
  generalize dependent (seedInventory env). intros seed Hres.
  case_bool_decide as Hd;
    unfold checkInventoryCollection, getDocs_inventory; unfold_M.
  - destruct Hd as [Hlist Hne]. rewrite Hlist. cbn.
    destruct (length (map_to_list (inventory fs))) as [|n] eqn:Hlen.
    + exfalso. apply Hne. apply map_size_empty_iff.
      by rewrite <- length_map_to_list.
    + cbn. auto.
  - destruct (getDocs_error env "inventory") as [e|] eqn:Hlist; cbn.
    + destruct (Js.code_is (Js.code e) "permission-denied"); cbn;
        rewrite Hres; cbn; rewrite ?app_nil_r; auto.
    + destruct (length (map_to_list (inventory fs))) as [|n] eqn:Hlen; cbn.
      * rewrite Hres. cbn. rewrite ?app_nil_r. auto.
      * exfalso. apply Hd. split; [reflexivity|]. intros Hempty.
        rewrite Hempty, map_to_list_empty in Hlen. discriminate.
Qed.

(** ** The order of the home screen *)

Lemma omap_keys_sublist {A : Type} (f : string -> option A) (g : A -> string)
    (keys : list string) :
  (forall k x, f k = Some x -> g x = k) ->
  sublist (map g (omap f keys)) keys.
Proof.
  intros Hfg. induction keys as [|k keys IH]; cbn; [constructor|].
  destruct (f k) as [x|] eqn:Hk; cbn.
  - rewrite (Hfg _ _ Hk). by constructor.
  - by constructor.
Qed.

Lemma omap_keys_NoDup {A : Type} (f : string -> option A) (g : A -> string)
    (keys : list string) :
  (forall k x, f k = Some x -> g x = k) ->
  NoDup keys -> NoDup (omap f keys).
Proof.
  intros Hfg. induction 1 as [|k keys Hk _ IH]; cbn; [constructor|].
  destruct (f k) as [x|] eqn:Hx; [|assumption].
  constructor; [|assumption].
  intros Hin. apply list_elem_of_omap in Hin as (k' & Hk' & Hx').
  apply Hk. by rewrite <- (Hfg _ _ Hx), (Hfg _ _ Hx').
Qed.

Lemma find_imageKey (key : string) (products : list Product.t) (p : Product.t) :
  List.find (fun p => String.eqb (Product.imageKey p) key) products = Some p ->
  p ∈ products /\ Product.imageKey p = key.
Proof.
  intros H. apply find_some in H as [Hin Hkey].
  split; [by apply list_elem_of_In | by apply String.eqb_eq].
Qed.

Lemma NoDup_fmap_eq {A B : Type} (f : A -> B) (l : list A) (x y : A) :
  NoDup (f <$> l) -> x ∈ l -> y ∈ l -> f x = f y -> x = y.
Proof.
  induction l as [|a l IH]; cbn; intros Hnd Hx Hy Hf.
  - by apply elem_of_nil in Hx.
  - apply NoDup_cons in Hnd as [Ha Hnd].
    apply elem_of_cons in Hx as [->|Hx]; apply elem_of_cons in Hy as [->|Hy].
    + reflexivity.
    + exfalso. apply Ha. rewrite Hf. apply list_elem_of_fmap. by exists y.
    + exfalso. apply Ha. rewrite <- Hf. apply list_elem_of_fmap. by exists x.
    + by apply IH.
Qed.

(** The sorted list consists of products of the given list: first at most
    one product for each priority key that occurs, in the order of
    [PRIORITY_PRODUCTS], then all products without a priority key, in
    their own order.  It is never longer than the list that was given. *)
Theorem sortProductsByPriority_shape (products : list Product.t) :
  exists priority others,
    sortProductsByPriority products = (priority ++ others)%list /\
    sublist (map Product.imageKey priority) PRIORITY_PRODUCTS /\
    (forall p, p ∈ priority -> p ∈ products) /\
    others =
      filter (fun p => Product.imageKey p ∉ PRIORITY_PRODUCTS) products /\
    sublist others products /\
    (forall key, key ∈ PRIORITY_PRODUCTS ->
       key ∈ map Product.imageKey products ->
       key ∈ map Product.imageKey priority) /\
    length (sortProductsByPriority products) <= length products.
Proof.
  unfold sortProductsByPriority.
  set (f := fun key =>
              List.find (fun p => String.eqb (Product.imageKey p) key) products).
  assert (forall k x, f k = Some x -> Product.imageKey x = k) as Hfg.
  { intros k x Hx. by apply find_imageKey in Hx as [_ ?]. }
  eexists _, _. split; [reflexivity|].
  split; [by apply omap_keys_sublist|].
  split.
  { intros p Hin. apply list_elem_of_omap in Hin as (k & _ & Hk).
    by apply find_imageKey in Hk as [? _]. }
  split; [reflexivity|]. split; [apply sublist_filter|].
  split.
  { intros key Hkey Hin. apply list_elem_of_fmap in Hin as (p & -> & Hp).
    destruct (f (Product.imageKey p)) as [q|] eqn:Hq.
    - apply list_elem_of_fmap. exists q. split.
      + symmetry. by apply Hfg.
      + apply list_elem_of_omap. by exists (Product.imageKey p).
    - exfalso. unfold f in Hq.
      pose proof (find_none _ _ Hq p (proj1 (list_elem_of_In _ _) Hp)) as Hf.
      cbn in Hf. rewrite String.eqb_refl in Hf. discriminate. }
  rewrite length_app.
  rewrite <- (Permutation_length
                (filter_app_complement
                   (fun p => Product.imageKey p ∈ PRIORITY_PRODUCTS) products)).
  rewrite length_app. apply Nat.add_le_mono_r.
  apply submseteq_length, NoDup_submseteq.
  - apply (omap_keys_NoDup f Product.imageKey); [assumption|].
    by apply (bool_decide_unpack _).
  - intros p Hin. apply list_elem_of_omap in Hin as (k & Hk & Hp).
    apply list_elem_of_filter. pose proof (Hfg _ _ Hp) as <-.
    apply find_imageKey in Hp as [? _]. by split.
Qed.

(** When no two products share an image key, sorting only reorders: the
    result is a permutation of the list that was given. *)
Theorem sortProductsByPriority_permutation (products : list Product.t) :
  NoDup (map Product.imageKey products) ->
  sortProductsByPriority products ≡ₚ products.
Proof.
  intros Hnd. unfold sortProductsByPriority.
  set (f := fun key =>
              List.find (fun p => String.eqb (Product.imageKey p) key) products).
  assert (forall k x, f k = Some x -> Product.imageKey x = k) as Hfg.
  { intros k x Hx. by apply find_imageKey in Hx as [_ ?]. }
  etrans; [|apply (filter_app_complement
                     (fun p => Product.imageKey p ∈ PRIORITY_PRODUCTS) products)].
  apply Permutation_app; [|reflexivity].
  apply NoDup_Permutation.
  - apply (omap_keys_NoDup f Product.imageKey); [assumption|].
    by apply (bool_decide_unpack _).
  - apply NoDup_filter. by apply (NoDup_fmap_1 Product.imageKey).
  - intros p. rewrite list_elem_of_omap, list_elem_of_filter. split.
    + intros (k & Hk & Hp). pose proof (Hfg _ _ Hp) as <-.
      apply find_imageKey in Hp as [? _]. by split.
    + intros [Hkey Hp]. exists (Product.imageKey p). split; [assumption|].
      destruct (f (Product.imageKey p)) as [q|] eqn:Hq.
      * f_equal. apply (NoDup_fmap_eq Product.imageKey products);
          [assumption | | assumption | by apply Hfg].
        by apply find_imageKey in Hq as [? _].
      * exfalso. unfold f in Hq.
        pose proof (find_none _ _ Hq p (proj1 (list_elem_of_In _ _) Hp)) as Hf.
        cbn in Hf. rewrite String.eqb_refl in Hf. discriminate.
Qed.

Lemma sortProductsByPriority_permutation_witness :
  sortProductsByPriority productsData ≡ₚ productsData.
Proof.
  apply (sortProductsByPriority_permutation productsData).
  by apply (bool_decide_unpack _).
Defined.

(** ** The sign-up screen *)



(** ** Signing out from the app *)

(** [handleSignOut] never rejects.  The local state goes back to the
    landing screen, with guest mode off, exactly when Firebase's sign-out
    resolved, whatever the Google module answered; otherwise it is left
    as it is. *)
Theorem handleSignOut_resets_on_success (env : Env) (ms : ModuleState)
    (st : AppState) (fs : Firestore) :
  let o := handleSignOut env ms st fs in
  store o = fs /\
  trace o = trace (signOut env ms fs) /\
  result o =
    inr (match firebaseSignOut env with
         | None => {| authView := landing_signin; skipAuth := false |}
         | Some _ => st
         end).
Proof.
  cbn zeta. unfold handleSignOut, signOut. unfold_M. cbn.
  destruct (firebaseSignOut env); cbn; [auto|].
  destruct (negb (String.eqb (Platform_OS env) "web")
            && isGoogleSignInAvailable ms && GoogleSignin ms); cbn;
    [|rewrite ?app_nil_r; auto].
  destruct (google_signOut env); cbn; rewrite ?app_nil_r; auto.
Qed.
